(** * gsoc2-cli: the JavaScript command execution bridge (js/helper.js)

    A shallow embedding of the helper module of the Node wrapper around the
    [gsoc2-cli] binary: platform resolution, option serialization and the
    construction of the child process request, with the statements of the
    design document settled against it. *)

From Stdlib Require Import ZArith Ascii DecimalString.
From stdpp Require Import base strings list gmap.

Set Warnings "-register-all".
Local Open Scope string_scope.
Local Open Scope list_scope.

(** ** JavaScript values

    The fragment of the value universe that the helper touches.  Numbers are
    the integers (where [String(n)] is the decimal numeral); an object is the
    list of its own enumerable string-keyed properties in the order in which
    [Object.keys] and [Object.entries] enumerate them. *)
Module JS.

Inductive Value : Type :=
  | Undefined
  | Null
  | Bool (b : bool)
  | Num (n : Z)
  | Str (s : string)
  | Arr (elems : list Value)
  | Obj (props : list (string * Value)).

(** Thrown values and the error handed to an [execFile] callback.  [Error]
    is [new Error(message)], [TypeError] is raised by the language itself
    (a property read on [undefined], a call of a missing method), and
    [ChildProcessError] is the error object of the runtime, whose [code]
    property is the exit status or the errno name. *)
Inductive Exn : Type :=
  | Error (message : string)
  | TypeError (message : string)
  | ChildProcessError (code : Value).

(** A computation that either returns or throws. *)
Inductive Completion (A : Type) : Type :=
  | Return (a : A)
  | Throw (e : Exn).
Arguments Return {A} a.
Arguments Throw {A} e.

Definition bind {A B} (c : Completion A) (k : A → Completion B) : Completion B :=
  match c with
  | Return a => k a
  | Throw e => Throw e
  end.

(** [ToBoolean]: the test performed by [if (v)], [v ? _ : _] and [v || _]. *)
Definition truthy (v : Value) : bool :=
  match v with
  | Undefined | Null => false
  | Bool b => b
  | Num n => negb (n =? 0)%Z
  | Str s => negb (String.eqb s "")
  | Arr _ | Obj _ => true
  end.

(** [v === undefined || v === null] *)
Definition nullish (v : Value) : bool :=
  match v with
  | Undefined | Null => true
  | _ => false
  end.

Definition isArray (v : Value) : option (list Value) :=
  match v with
  | Arr l => Some l
  | _ => None
  end.

Definition decimal (n : Z) : string := NilZero.string_of_int (Z.to_int n).

(** [String(v)], also the conversion applied by template literals and by
    [String.prototype.concat].  Inside an array, [undefined] and [null]
    print as the empty string and the elements are joined by commas. *)
Fixpoint String (v : Value) : string :=
  match v with
  | Undefined => "undefined"
  | Null => "null"
  | Bool true => "true"
  | Bool false => "false"
  | Num n => decimal n
  | Str s => s
  | Arr l =>
      (fix join (l : list Value) : string :=
         match l with
         | [] => ""
         | x :: r =>
             (if nullish x then "" else String x) +:+
             match r with
             | [] => ""
             | _ :: _ => "," +:+ join r
             end
         end) l
  | Obj _ => "[object Object]"
  end.

(** [Array.prototype.concat]: an argument that is an array is spread (one
    level deep), any other argument is appended as a single element. *)
Definition spread (v : Value) : list Value :=
  match v with
  | Arr l => l
  | _ => [v]
  end.

Definition concat (a : list Value) (items : list Value) : list Value :=
  a ++ items ≫= spread.

(** [Object.entries]: the own enumerable properties as key/value pairs.
    Arrays and strings expose their indices; the primitives have none. *)
Definition indexed (l : list Value) : list (string * Value) :=
  imap (λ i x, (decimal (Z.of_nat i), x)) l.

Fixpoint chars (s : string) : list Value :=
  match s with
  | EmptyString => []
  | String.String c r => Str (String.String c EmptyString) :: chars r
  end.

Definition entries (v : Value) : list (string * Value) :=
  match v with
  | Obj props => props
  | Arr l => indexed l
  | Str s => indexed (chars s)
  | _ => []
  end.

End JS.

Notation "'let!' x ':=' c 'in' k" := (JS.bind c (λ x, k))
  (at level 10, x name, c at level 100, k at level 200, only parsing).

(** ** Option schemas and serialization *)

(** [OptionSchema]: the flag of the option, its declared type, and for a
    boolean the flag that stands for [false].  An undeclared flag is
    [undefined] in the source. *)
Record OptionSchema : Type := {
  param : option string;
  type : string;
  invertedParam : option string;
}.

(** [OptionsSchema]: an object from option names to their schema; the list
    is in the order of [Object.keys]. *)
Abbreviation OptionsSchema := (list (string * OptionSchema)).

(** The user's options object, read only through [options[option]]; a
    missing key reads as [undefined].  This is the read of an own property:
    under a name inherited from [Object.prototype] a plain object without
    the property reads as the inherited member instead, and the statements
    that depend on the difference exclude such names. *)
Abbreviation Options := (gmap string JS.Value).

Definition get (o : Options) (key : string) : JS.Value :=
  default JS.Undefined (o !! key).

Definition Object_keys {A} (o : list (string * A)) : list string := o.*1.

(** [schema[option]] *)
Fixpoint prop {A} (o : list (string * A)) (key : string) : option A :=
  match o with
  | [] => None
  | (k, a) :: r => if String.eqb k key then Some a else prop r key
  end.

(** A flag as it is put into the arguments array. *)
Definition flagValue (p : option string) : JS.Value :=
  from_option JS.Str JS.Undefined p.

(** [p !== undefined] *)
Definition defined (p : option string) : bool := bool_decide (is_Some p).

(** [paramValue.reduce((acc, value) => acc.concat([paramName, String(value)]), [])] *)
Definition arrayArguments (paramName : option string) (paramValue : list JS.Value)
  : list JS.Value :=
  fold_left
    (λ acc value, JS.concat acc [JS.Arr [flagValue paramName; JS.Str (JS.String value)]])
    paramValue [].

(** The body of the reducer of [serializeOptions]. *)
Definition serializeOption (schema : OptionsSchema) (options : Options)
    (newOptions : list JS.Value) (option : string) : JS.Completion (list JS.Value) :=
  let paramValue := get options option in
  if JS.nullish paramValue then JS.Return newOptions
  else
    match prop schema option with
    | None => JS.Throw (JS.TypeError "Cannot read properties of undefined")
    | Some entry =>
        let paramType := type entry in
        let paramName := param entry in
        if String.eqb paramType "array" then
          match JS.isArray paramValue with
          | None => JS.Throw (JS.Error (option +:+ " should be an array"))
          | Some elems =>
              JS.Return (JS.concat newOptions [JS.Arr (arrayArguments paramName elems)])
          end
        else if String.eqb paramType "boolean" then
          match paramValue with
          | JS.Bool b =>
              let invertedParamName := invertedParam entry in
              if b && defined paramName then
                JS.Return (JS.concat newOptions [JS.Arr [flagValue paramName]])
              else if negb b && defined invertedParamName then
                JS.Return (JS.concat newOptions [JS.Arr [flagValue invertedParamName]])
              else JS.Return newOptions
          | _ => JS.Throw (JS.Error (option +:+ " should be a bool"))
          end
        else JS.Return (JS.concat newOptions [flagValue paramName; paramValue])
    end.

(** [Object.keys(schema).reduce(..., [])]; a throw in the reducer leaves the
    reduction. *)
Definition serializeOptions (schema : OptionsSchema) (options : Options)
  : JS.Completion (list JS.Value) :=
  fold_left
    (λ acc option, let! newOptions := acc in serializeOption schema options newOptions option)
    (Object_keys schema) (JS.Return []).

(** [command.concat(serializeOptions(schema || {}, options || {}))].  The
    method is looked up on [command] before the argument is evaluated and
    called after it: on an array it is [Array.prototype.concat], on a string
    it is [String.prototype.concat], which appends the string conversion of
    its argument.  An omitted [schema] or [options] is [None]. *)
Definition prepareCommand (command : JS.Value) (schema : option OptionsSchema)
    (options : option Options) : JS.Completion JS.Value :=
  if JS.nullish command then
    JS.Throw (JS.TypeError "Cannot read properties of undefined")
  else
    let! serialized := serializeOptions (default [] schema) (default ∅ options) in
    match command with
    | JS.Arr tokens => JS.Return (JS.Arr (JS.concat tokens [JS.Arr serialized]))
    | JS.Str name => JS.Return (JS.Str (name +:+ JS.String (JS.Arr serialized)))
    | _ => JS.Throw (JS.TypeError "command.concat is not a function")
    end.

(** [projects.reduce((flags, project) => flags.concat('-p', project), [])] *)
Definition getProjectFlagsFromOptions (projects : option (list JS.Value)) : list JS.Value :=
  fold_left (λ flags project, JS.concat flags [JS.Str "-p"; project])
    (default [] projects) [].

(** ** Platform resolution *)

(** A binary distribution.  [getDistributionForThisPlatform] leaves
    [packageName] undefined on a platform without one. *)
Record Distribution : Type := {
  packageName : option string;
  subpath : string;
}.

Definition BINARY_DISTRIBUTIONS : list Distribution := [
  {| packageName := Some "@gsoc2/cli-darwin"; subpath := "bin/gsoc2-cli" |};
  {| packageName := Some "@gsoc2/cli-linux-x64"; subpath := "bin/gsoc2-cli" |};
  {| packageName := Some "@gsoc2/cli-linux-i686"; subpath := "bin/gsoc2-cli" |};
  {| packageName := Some "@gsoc2/cli-linux-arm64"; subpath := "bin/gsoc2-cli" |};
  {| packageName := Some "@gsoc2/cli-linux-arm"; subpath := "bin/gsoc2-cli" |};
  {| packageName := Some "@gsoc2/cli-win32-x64"; subpath := "bin/gsoc2-cli.exe" |};
  {| packageName := Some "@gsoc2/cli-win32-i686"; subpath := "bin/gsoc2-cli.exe" |}
].

(** What the module reads from the machine it runs on: [os.platform()]
    (which is [process.platform]), [os.arch()], [process.env], [__dirname],
    [path.resolve], [fs.existsSync] and [require.resolve] ([None] when the
    lookup throws). *)
Record Host : Type := {
  platform : string;
  arch : string;
  process_env : gmap string string;
  dirname : string;
  path_resolve : list string → string;
  fs_existsSync : string → bool;
  require_resolve : string → option string;
}.

(** The lookups a resolution performs, in order. *)
Inductive Probe : Type :=
  | ExistsSync (path : string)
  | RequireResolve (request : string).

Definition getFallbackBinaryPath (h : Host) : string :=
  let parts := [] in
  let parts := parts ++ [dirname h] in
  let parts := parts ++ [".."] in
  let parts :=
    parts ++ ["gsoc2-cli" +:+ (if String.eqb (platform h) "win32" then ".exe" else "")] in
  path_resolve h parts.

Definition getDistributionForThisPlatform (h : Host) : Distribution :=
  let arch := arch h in
  let platform := platform h in
  let packageName :=
    if String.eqb platform "darwin" then Some "@gsoc2/cli-darwin"
    else if String.eqb platform "linux" || String.eqb platform "freebsd" then
      if String.eqb arch "x64" then Some "@gsoc2/cli-linux-x64"
      else if String.eqb arch "x86" || String.eqb arch "ia32" then Some "@gsoc2/cli-linux-i686"
      else if String.eqb arch "arm64" then Some "@gsoc2/cli-linux-arm64"
      else if String.eqb arch "arm" then Some "@gsoc2/cli-linux-arm"
      else None
    else if String.eqb platform "win32" then
      if String.eqb arch "x64" then Some "@gsoc2/cli-win32-x64"
      else if String.eqb arch "x86" || String.eqb arch "ia32" then Some "@gsoc2/cli-win32-i686"
      else None
    else None in
  let subpath :=
    if String.eqb platform "win32" then "bin/gsoc2-cli.exe"
    else if String.eqb platform "darwin" || String.eqb platform "linux"
            || String.eqb platform "freebsd" then "bin/gsoc2-cli"
    else "bin/gsoc2-cli" in
  {| packageName := packageName; subpath := subpath |}.

Definition unsupportedPlatformMessage : string :=
"Unsupported operating system or architecture! Gsoc2 CLI does not work on this architecture.

Gsoc2 CLI supports:
- Darwin (macOS)
- Linux and FreeBSD on x64, x86, ia32, arm64, and arm architectures
- Windows x64, x86, and ia32 architectures".

Definition throwUnsupportedPlatformError {A} : JS.Completion A :=
  JS.Throw (JS.Error unsupportedPlatformMessage).

(** The double quote character of the messages below. *)
Definition dq : string := String.String "034"%char EmptyString.

Definition wrongPackageMessage (other expected : string) : string :=
  "Gsoc2 CLI binary for this platform/architecture not found!

The " +:+ dq +:+ other +:+ dq +:+ " package is installed, but for the current platform, you should have the " +:+ dq +:+ expected +:+ dq +:+ " package installed instead. This usually happens if the " +:+ dq +:+ "@gsoc2/cli" +:+ dq +:+ " package is installed on one platform (for example Windows or MacOS) and then the " +:+ dq +:+ "node_modules" +:+ dq +:+ " folder is reused on another operating system (for example Linux in Docker).

To fix this, avoid copying the " +:+ dq +:+ "node_modules" +:+ dq +:+ " folder, and instead freshly install your dependencies on the target system. You can also configure your package manager to install the right package. For example, yarn has the " +:+ dq +:+ "supportedArchitectures" +:+ dq +:+ " feature: https://yarnpkg.com/configuration/yarnrc/#supportedArchitecture.".

Definition noOptionalDependenciesMessage : string :=
  "Gsoc2 CLI binary for this platform/architecture not found!

It seems like none of the " +:+ dq +:+ "@gsoc2/cli" +:+ dq +:+ " package's optional dependencies got installed. Please make sure your package manager is configured to install optional dependencies. If you are using npm to install your dependencies, please don't set the " +:+ dq +:+ "--no-optional" +:+ dq +:+ ", " +:+ dq +:+ "--ignore-optional" +:+ dq +:+ ", or " +:+ dq +:+ "--omit=optional" +:+ dq +:+ " flags. Gsoc2 CLI needs the " +:+ dq +:+ "optionalDependencies" +:+ dq +:+ " feature in order to install its binary.".

(** The template literal [`${packageName}/${subpath}`]. *)
Definition packagePath (d : Distribution) : string :=
  default "undefined" (packageName d) +:+ "/" +:+ subpath d.

(** [BINARY_DISTRIBUTIONS.find(...)]: the first distribution whose package
    resolves, with the lookups made on the way. *)
Fixpoint findInstalled (h : Host) (ds : list Distribution)
  : list Probe * option Distribution :=
  match ds with
  | [] => ([], None)
  | d :: rest =>
      match require_resolve h (packagePath d) with
      | Some _ => ([RequireResolve (packagePath d)], Some d)
      | None =>
          let '(probes, found) := findInstalled h rest in
          (RequireResolve (packagePath d) :: probes, found)
      end
  end.

(** [process.env.NAME] used as a condition: set and not empty. *)
Definition envPath (h : Host) (name : string) : option string :=
  match process_env h !! name with
  | Some value => if String.eqb value "" then None else Some value
  | None => None
  end.

(** [getBinaryPath]: the result and the lookups performed to get it. *)
Definition getBinaryPath (h : Host) : list Probe * JS.Completion string :=
  match envPath h "GSOC2_BINARY_PATH" with
  | Some override => ([], JS.Return override)
  | None =>
      let d := getDistributionForThisPlatform h in
      match packageName d with
      | None => ([], throwUnsupportedPlatformError)
      | Some expected =>
          let fallbackBinaryPath := getFallbackBinaryPath h in
          if fs_existsSync h fallbackBinaryPath then
            ([ExistsSync fallbackBinaryPath], JS.Return fallbackBinaryPath)
          else
            match require_resolve h (packagePath d) with
            | Some compatibleBinaryPath =>
                ([ExistsSync fallbackBinaryPath; RequireResolve (packagePath d)],
                 JS.Return compatibleBinaryPath)
            | None =>
                let '(probes, otherInstalledDistribution) :=
                  findInstalled h BINARY_DISTRIBUTIONS in
                ([ExistsSync fallbackBinaryPath; RequireResolve (packagePath d)] ++ probes,
                 match otherInstalledDistribution with
                 | Some other =>
                     JS.Throw (JS.Error
                       (wrongPackageMessage (default "undefined" (packageName other)) expected))
                 | None => JS.Throw (JS.Error noOptionalDependenciesMessage)
                 end)
            end
      end
  end.

(** The module variable [mockedBinaryPath] ([None] is [undefined]) and the
    function that sets it. *)
Record Helper : Type := { mockedBinaryPath : option string }.

Definition initial : Helper := {| mockedBinaryPath := None |}.

Definition mockBinaryPath (mockPath : string) (m : Helper) : Helper :=
  {| mockedBinaryPath := Some mockPath |}.

(** [mockedBinaryPath !== undefined ? mockedBinaryPath : getBinaryPath()] *)
Definition getPath (m : Helper) (h : Host) : list Probe * JS.Completion string :=
  match mockedBinaryPath m with
  | Some mocked => ([], JS.Return mocked)
  | None => getBinaryPath h
  end.

(** ** Execution *)

(** How a stream of the child is wired: [pipe] is the runtime's default. *)
Inductive Stdio : Type := ignore | inherit | pipe.

(** The calls into [child_process].  [spawn] carries the [stdio] option the
    caller passes; [execFile] is called with [{ env }] alone. *)
Inductive Request : Type :=
  | spawn (file : string) (args : list JS.Value) (env : gmap string JS.Value)
      (stdio : Stdio * Stdio * Stdio)
  | execFile (file : string) (args : list JS.Value) (env : gmap string JS.Value).

(** The [stdio] option that the helper passes with a request, if any. *)
Definition stdioOption (r : Request) : option (Stdio * Stdio * Stdio) :=
  match r with
  | spawn _ _ _ stdio => Some stdio
  | execFile _ _ _ => None
  end.

(** The wiring of the child's standard input, output and error under a
    request: without a [stdio] option the three streams are pipes, which the
    parent holds open. *)
Definition stdioOf (r : Request) : Stdio * Stdio * Stdio :=
  default (pipe, pipe, pipe) (stdioOption r).

Definition stdinOf (r : Request) : Stdio := (stdioOf r).1.1.

Definition envOf (r : Request) : gmap string JS.Value :=
  match r with
  | spawn _ _ env _ | execFile _ _ env => env
  end.

Definition argsOf (r : Request) : list JS.Value :=
  match r with
  | spawn _ args _ _ | execFile _ args _ => args
  end.

(** What becomes of a request, as [child_process] sees it.
    - [SpawnThrows]: the call itself throws (an empty file name, an errno
      that the runtime does not report as an event);
    - [SpawnFailure]: the process cannot be started, which the runtime
      reports after the call has returned (ENOENT, EACCES, ...);
    - [Exit]: the process runs to its end and exits with [status]; [stdout]
      is the text written to its standard output as [execFile] decodes it
      (UTF-8), a string whose length is its size in bytes;
    - [Terminated]: the process is started and ended otherwise, by a signal
      or by [execFile] itself (too much on standard error, for one); [e] is
      the error that [execFile] reports and [stdout] what it captured;
    - [Running]: the process does not end. *)
Inductive ProcessResult : Type :=
  | SpawnFailure (errno : string)
  | Exit (status : Z) (stdout : string)
  | SpawnThrows (e : JS.Exn)
  | Terminated (e : JS.Exn) (stdout : string)
  | Running.

(** How a call into [child_process] answers: it throws, or it returns and
    later delivers something (an event, the arguments of the callback), or
    it returns and delivers nothing. *)
Inductive Answer (A : Type) : Type :=
  | Threw (e : JS.Exn)
  | Delivers (a : A)
  | Silent.
Arguments Threw {A} e.
Arguments Delivers {A} a.
Arguments Silent {A}.

(** The events of the [ChildProcess] returned by [spawn]: ['exit'] once the
    process has ended (with its status, or none after a signal), ['error']
    when it could not be spawned. *)
Inductive ChildEvent : Type :=
  | OnExit (status : option Z)
  | OnError (e : JS.Exn).

Definition childEvent (r : ProcessResult) : Answer ChildEvent :=
  match r with
  | SpawnThrows e => Threw e
  | SpawnFailure errno => Delivers (OnError (JS.ChildProcessError (JS.Str errno)))
  | Exit status _ => Delivers (OnExit (Some status))
  | Terminated _ _ => Delivers (OnExit None)
  | Running => Silent
  end.

(** The default [maxBuffer] of [execFile], in bytes: the call passes
    [{ env }] alone. *)
Definition maxBuffer : Z := 1024 * 1024.

(** The arguments [(err, stdout)] with which [execFile] calls back.  Once
    the output exceeds [maxBuffer] the runtime gives up and [err] says so,
    whatever the exit status; otherwise [err] is [null] after exit status 0
    and an error whose [code] is the exit status after another one.  When
    the process did not start, [code] is the errno name. *)
Definition execFileCallback (r : ProcessResult) : Answer (option JS.Exn * string) :=
  match r with
  | SpawnThrows e => Threw e
  | SpawnFailure errno => Delivers (Some (JS.ChildProcessError (JS.Str errno)), "")
  | Exit status stdout =>
      if (maxBuffer <? Z.of_nat (String.length stdout))%Z then
        Delivers (Some (JS.ChildProcessError (JS.Str "ERR_CHILD_PROCESS_STDIO_MAXBUFFER")),
                  stdout)
      else if (status =? 0)%Z then Delivers (None, stdout)
      else Delivers (Some (JS.ChildProcessError (JS.Num status)), stdout)
  | Terminated e stdout => Delivers (Some e, stdout)
  | Running => Silent
  end.

(** The state in which the promise that [execute] returns ends up. *)
Inductive Promise : Type :=
  | Resolved (value : JS.Value)
  | Rejected (reason : JS.Exn)
  | Pending.

(** [if (value) { env.NAME = value; }] *)
Definition setIf (name : string) (value : JS.Value) (env : gmap string JS.Value)
  : gmap string JS.Value :=
  if JS.truthy value then <[name := value]> env else env.

(** [Object.entries(config.headers).flatMap(([key, value]) =>
    ['--header', `${key}:${value}`])] *)
Definition headerArguments (headers : JS.Value) : list JS.Value :=
  JS.entries headers ≫=
    (λ '(key, value), [JS.Str "--header"; JS.Str (key +:+ ":" +:+ JS.String value)]).

(** The first part of [execute]: the environment and the arguments of the
    child.  [config] is an object read through its properties; [None] is an
    omitted argument, for which the default [{}] stands. *)
Definition childEnvironment (h : Host) (args : list JS.Value) (configFile : JS.Value)
    (config : option Options) : gmap string JS.Value * list JS.Value :=
  let config := default ∅ config in
  let env := JS.Str <$> process_env h in
  let env := setIf "GSOC2_PROPERTIES" configFile env in
  let env := setIf "GSOC2_URL" (get config "url") env in
  let env := setIf "GSOC2_AUTH_TOKEN" (get config "authToken") env in
  let env := setIf "GSOC2_API_KEY" (get config "apiKey") env in
  let env := setIf "GSOC2_DSN" (get config "dsn") env in
  let env := setIf "GSOC2_ORG" (get config "org") env in
  let env := setIf "GSOC2_PROJECT" (get config "project") env in
  let env := setIf "GSOC2_VCS_REMOTE" (get config "vcsRemote") env in
  if JS.truthy (get config "customHeader") then
    (<["CUSTOM_HEADER" := get config "customHeader"]> env, args)
  else if JS.truthy (get config "headers") then
    let headers := headerArguments (get config "headers") in
    (env, headers ++ args)
  else (env, args).

(** One call of [execute], followed until the child is done: the lookups of
    the path resolution, the request made to [child_process] (if any), and
    the state of the returned promise. *)
Record Execution : Type := {
  probes : list Probe;
  request : option Request;
  promise : Promise;
}.

(** [execute(args, live, silent, configFile, config)] on host [h], where
    [run] is what becomes of a request.  The live branch is taken when
    [live === true]; it listens for ['exit'] only, so after an ['error']
    event, or without any event, the promise stays pending.  The buffered
    branch settles the promise in the callback of [execFile].  A throw
    inside the promise executor, of [getPath] or of the call into
    [child_process], rejects the promise. *)
Definition execute (m : Helper) (h : Host) (run : Request → ProcessResult)
    (args : list JS.Value) (live silent configFile : JS.Value) (config : option Options)
  : Execution :=
  let '(env, args) := childEnvironment h args configFile config in
  match live with
  | JS.Bool true =>
      let output := if JS.truthy silent then ignore else inherit in
      match getPath m h with
      | (probes, JS.Throw e) =>
          {| probes := probes; request := None; promise := Rejected e |}
      | (probes, JS.Return file) =>
          let pid := spawn file args env (ignore, output, output) in
          {| probes := probes; request := Some pid;
             promise :=
               match childEvent (run pid) with
               | Threw e => Rejected e
               | Delivers (OnExit _) => Resolved JS.Undefined
               | Delivers (OnError _) => Pending
               | Silent => Pending
               end |}
      end
  | _ =>
      match getPath m h with
      | (probes, JS.Throw e) =>
          {| probes := probes; request := None; promise := Rejected e |}
      | (probes, JS.Return file) =>
          let call := execFile file args env in
          {| probes := probes; request := Some call;
             promise :=
               match execFileCallback (run call) with
               | Threw e => Rejected e
               | Delivers (Some err, _) => Rejected err
               | Delivers (None, stdout) => Resolved (JS.Str stdout)
               | Silent => Pending
               end |}
      end
  end.

(** ** The documented tables and sample machines *)

(** The platforms of the design document: darwin on any architecture,
    linux and freebsd on x64, x86, ia32, arm64 and arm, win32 on x64, x86
    and ia32. *)
Definition supported (platform arch : string) : bool :=
  bool_decide (platform = "darwin")
  || bool_decide (platform ∈ ["linux"; "freebsd"])
     && bool_decide (arch ∈ ["x64"; "x86"; "ia32"; "arm64"; "arm"])
  || bool_decide (platform = "win32") && bool_decide (arch ∈ ["x64"; "x86"; "ia32"]).

(** The documented package of an architecture, for linux and freebsd and
    for win32. *)
Definition linuxPackages : list (string * string) := [
  ("x64", "@gsoc2/cli-linux-x64");
  ("x86", "@gsoc2/cli-linux-i686");
  ("ia32", "@gsoc2/cli-linux-i686");
  ("arm64", "@gsoc2/cli-linux-arm64");
  ("arm", "@gsoc2/cli-linux-arm")
].

Definition win32Packages : list (string * string) := [
  ("x64", "@gsoc2/cli-win32-x64");
  ("x86", "@gsoc2/cli-win32-i686");
  ("ia32", "@gsoc2/cli-win32-i686")
].

(** The documented distribution table, read as a function. *)
Definition documentedDistribution (platform arch : string) : Distribution :=
  {| packageName :=
       if bool_decide (platform = "darwin") then Some "@gsoc2/cli-darwin"
       else if bool_decide (platform = "win32") then prop win32Packages arch
       else prop linuxPackages arch;
     subpath :=
       if bool_decide (platform = "win32") then "bin/gsoc2-cli.exe" else "bin/gsoc2-cli" |}.

(** [needle] occurs in [hay]. *)
Fixpoint includes (needle hay : string) : bool :=
  String.prefix needle hay ||
  match hay with
  | EmptyString => false
  | String.String _ rest => includes needle rest
  end.

(** A machine for the examples: paths are joined with slashes, the files in
    [files] exist and the modules in [modules] resolve. *)
Definition machine (platform arch : string) (env : gmap string string)
    (files : list string) (modules : gmap string string) : Host :=
  {| platform := platform;
     arch := arch;
     process_env := env;
     dirname := "/app/node_modules/@gsoc2/cli/js";
     path_resolve := String.concat "/";
     fs_existsSync := λ path, bool_decide (path ∈ files);
     require_resolve := λ request, modules !! request |}.

(** A process for the examples: it prints a line and exits with [status]. *)
Definition exits (status : Z) : Request → ProcessResult :=
  λ _, Exit status "gsoc2-cli 2.0.0
".

(** ** The serializer of the design document

    Written from the document's words, for comparison with
    [serializeOptions]: what one schema entry contributes, and the
    concatenation of the contributions in schema order. *)

(** One [flag, stringified(element)] pair per element, flattened. *)
Definition arrayContribution (flag : JS.Value) (elems : list JS.Value) : list JS.Value :=
  elems ≫= (λ element, [flag; JS.Str (JS.String element)]).

(** The contribution of an entry; [other] is what a value of any type but
    array and boolean contributes after its flag. *)
Definition contribution (other : JS.Value → list JS.Value)
    (name : string) (entry : OptionSchema) (value : JS.Value)
  : JS.Completion (list JS.Value) :=
  if JS.nullish value then JS.Return []
  else if bool_decide (type entry = "array") then
    match value with
    | JS.Arr elems => JS.Return (arrayContribution (flagValue (param entry)) elems)
    | _ => JS.Throw (JS.Error (name +:+ " should be an array"))
    end
  else if bool_decide (type entry = "boolean") then
    match value with
    | JS.Bool true =>
        JS.Return (match param entry with Some flag => [JS.Str flag] | None => [] end)
    | JS.Bool false =>
        JS.Return (match invertedParam entry with
                   | Some invertedFlag => [JS.Str invertedFlag]
                   | None => []
                   end)
    | _ => JS.Throw (JS.Error (name +:+ " should be a bool"))
    end
  else JS.Return (flagValue (param entry) :: other value).

Fixpoint serializeEntries (other : JS.Value → list JS.Value)
    (entries : OptionsSchema) (options : Options) : JS.Completion (list JS.Value) :=
  match entries with
  | [] => JS.Return []
  | (name, entry) :: rest =>
      let! tokens := contribution other name entry (get options name) in
      let! more := serializeEntries other rest options in
      JS.Return (tokens ++ more)
  end.

(** As documented: the value follows the flag as one token, verbatim. *)
Definition documentedSerializer : OptionsSchema → Options → JS.Completion (list JS.Value) :=
  serializeEntries (λ value, [value]).

(** As the code has it: an array value is spliced in, element by element;
    any other value follows the flag verbatim. *)
Definition splicingSerializer : OptionsSchema → Options → JS.Completion (list JS.Value) :=
  serializeEntries JS.spread.

(** ** The configuration variables of the design document *)

(** The recognized fields of [config] and the environment variable
    dedicated to each. *)
Definition fieldVariables : list (string * string) := [
  ("url", "GSOC2_URL");
  ("authToken", "GSOC2_AUTH_TOKEN");
  ("apiKey", "GSOC2_API_KEY");
  ("dsn", "GSOC2_DSN");
  ("org", "GSOC2_ORG");
  ("project", "GSOC2_PROJECT");
  ("vcsRemote", "GSOC2_VCS_REMOTE");
  ("customHeader", "CUSTOM_HEADER")
].

(** Each configuration variable with the value of its source: the
    configuration file path, then the fields of [config]. *)
Definition configurationVariables (configFile : JS.Value) (config : Options)
  : list (string * JS.Value) :=
  ("GSOC2_PROPERTIES", configFile)
  :: map (λ '(field, variable), (variable, get config field)) fieldVariables.

(** The child environment as documented: a variable whose source is
    provided carries the source's value, every other name reads as in the
    parent's environment. *)
Definition documentedEnvironment (h : Host) (configFile : JS.Value) (config : Options)
    (name : string) : option JS.Value :=
  match prop (configurationVariables configFile config) name with
  | Some value => if JS.truthy value then Some value else JS.Str <$> process_env h !! name
  | None => JS.Str <$> process_env h !! name
  end.


(** ** The wrapper class (js/index.js) *)

(** An instance of [Gsoc2Cli]: the properties [configFile] (set only when
    the constructor's argument is a string) and [options].  The [releases]
    member, an object of the releases module, is not part of this model. *)
Module Gsoc2Cli.

Record Instance : Type := {
  configFile : option string;
  options : Options;
}.

(** [constructor(configFile, options)]: [typeof configFile === 'string']
    guards the first assignment, and [options || { silent: false }] is the
    second ([None] is an omitted or [null] argument). *)
Definition constructor (configFile : JS.Value) (options : option Options) : Instance :=
  {| configFile := match configFile with JS.Str path => Some path | _ => None end;
     options := default {[ "silent" := JS.Bool false ]} options |}.

(** [static getPath()] *)
Definition getPath (m : Helper) (h : Host) : list Probe * JS.Completion string :=
  getPath m h.

(** [helper.execute(args, live, this.options.silent, this.configFile,
    this.options)] *)
Definition execute (this : Instance) (m : Helper) (h : Host) (run : Request → ProcessResult)
    (args : list JS.Value) (live : JS.Value) : Execution :=
  execute m h run args live
    (get (options this) "silent")
    (flagValue (configFile this))
    (Some (options this)).

End Gsoc2Cli.

(** ** Further notions for the statements *)

(** The host [h] with another environment. *)
Definition withEnv (env : gmap string string) (h : Host) : Host :=
  {| platform := platform h;
     arch := arch h;
     process_env := env;
     dirname := dirname h;
     path_resolve := path_resolve h;
     fs_existsSync := fs_existsSync h;
     require_resolve := require_resolve h |}.

(** The package of distribution [d] resolves on [h]. *)
Definition installed (h : Host) (d : Distribution) : bool :=
  bool_decide (is_Some (require_resolve h (packagePath d))).

Definition isString (v : JS.Value) : bool :=
  match v with
  | JS.Str _ => true
  | _ => false
  end.

(** A value that [serializeOptions] accepts for an entry: absent, or an
    array for an array option, or a boolean for a boolean option, or
    anything for an option of another type. *)
Definition accepted (entry : OptionSchema) (value : JS.Value) : bool :=
  JS.nullish value
  || (if String.eqb (type entry) "array" then bool_decide (is_Some (JS.isArray value))
      else if String.eqb (type entry) "boolean"
           then match value with JS.Bool _ => true | _ => false end
           else true).

(** The property names that a plain object inherits from
    [Object.prototype]: under one of these, [options[name]] is not
    [undefined] when the object has no such property of its own. *)
Definition ObjectPrototype : list string := [
  "constructor"; "hasOwnProperty"; "isPrototypeOf"; "propertyIsEnumerable";
  "toLocaleString"; "toString"; "valueOf"; "__proto__";
  "__defineGetter__"; "__defineSetter__"; "__lookupGetter__"; "__lookupSetter__"
].

(** The option names of [schema] are read as own properties: none is
    inherited. *)
Definition ownNames {A} (schema : list (string * A)) : Prop :=
  Forall (λ name, name ∉ ObjectPrototype) (Object_keys schema).

(** The properties of [config] that [execute] reads. *)
Definition configKeys : list string :=
  fieldVariables.*1 ++ ["headers"].

(** The message with which a value that is not accepted is refused. *)
Definition refusal (name : string) (entry : OptionSchema) : string :=
  name +:+ (if String.eqb (type entry) "array" then " should be an array"
            else " should be a bool").

(** ** JavaScript values: examples *)

Example String_array :
  JS.String (JS.Arr [JS.Str "a"; JS.Null; JS.Num (-12); JS.Arr [JS.Bool true; JS.Undefined]])
  = "a,,-12,true,".
Proof. reflexivity. Qed.

Example concat_spreads :
  JS.concat [JS.Str "x"] [JS.Str "-p"; JS.Arr [JS.Num 1; JS.Arr []]]
  = [JS.Str "x"; JS.Str "-p"; JS.Num 1; JS.Arr []].
Proof. reflexivity. Qed.

Example entries_of_values :
  JS.entries (JS.Arr [JS.Str "a"; JS.Num 2]) = [("0", JS.Str "a"); ("1", JS.Num 2)]
  ∧ JS.entries (JS.Str "ab") = [("0", JS.Str "a"); ("1", JS.Str "b")]
  ∧ JS.entries (JS.Num 5) = [].
Proof. repeat split. Qed.

Example project_flags :
  getProjectFlagsFromOptions (Some [JS.Str "proj-a"; JS.Str "proj-b"])
  = [JS.Str "-p"; JS.Str "proj-a"; JS.Str "-p"; JS.Str "proj-b"].
Proof. reflexivity. Qed.

(** ** Platform resolution: results *)

Section resolution.

Implicit Types (h : Host) (m : Helper).

Lemma getPath_mocked m h mocked :
  mockedBinaryPath m = Some mocked → getPath m h = ([], JS.Return mocked).
Proof. unfold getPath. by intros ->. Qed.

Lemma getPath_unmocked m h :
  mockedBinaryPath m = None → getPath m h = getBinaryPath h.
Proof. unfold getPath. by intros ->. Qed.

Lemma getBinaryPath_override h override :
  envPath h "GSOC2_BINARY_PATH" = Some override →
  getBinaryPath h = ([], JS.Return override).
Proof. unfold getBinaryPath. by intros ->. Qed.

Lemma getBinaryPath_unsupported h :
  envPath h "GSOC2_BINARY_PATH" = None →
  packageName (getDistributionForThisPlatform h) = None →
  getBinaryPath h = ([], throwUnsupportedPlatformError).
Proof. unfold getBinaryPath. by intros -> ->. Qed.

End resolution.

Lemma bool_decide_eqb (x s : string) : bool_decide (x = s) = String.eqb x s.
Proof.
  destruct (String.eqb_spec x s) as [->|Hne].
  - by apply bool_decide_true.
  - by apply bool_decide_false.
Qed.

Lemma bool_decide_elem_of (x : string) (l : list string) :
  bool_decide (x ∈ l) = existsb (String.eqb x) l.
Proof.
  induction l as [|s l IH]; cbn [existsb].
  - apply bool_decide_false. by intros ?%elem_of_nil.
  - rewrite <- IH, <- bool_decide_eqb, <- bool_decide_or.
    apply bool_decide_ext. by rewrite elem_of_cons.
Qed.

(** Case analysis on the platform and architecture names that the source
    compares against; [fin] closes the cases. *)
Ltac clash_names :=
  repeat match goal with
         | E : String.eqb _ _ = true |- _ => apply String.eqb_eq in E
         end;
  congruence.

Ltac split_name x s fin :=
  let E := fresh "E" in
  destruct (String.eqb x s) eqn:E; cbn -[String.eqb]; try (fin; fail).

Ltac split_platform p a fin :=
  rewrite ?bool_decide_eqb, ?bool_decide_elem_of; cbn -[String.eqb];
  rewrite ?(String.eqb_sym _ a);
  split_name p "darwin" fin; split_name p "linux" fin; split_name p "freebsd" fin;
  split_name p "win32" fin;
  split_name a "x64" fin; split_name a "x86" fin; split_name a "ia32" fin;
  split_name a "arm64" fin; split_name a "arm" fin; try clash_names.

(** The source's two switches and the documented table agree everywhere:
    on a supported pair the result is the table's row, on any other pair
    the package is undefined. *)
Lemma getDistributionForThisPlatform_table (h : Host) :
  getDistributionForThisPlatform h =
    if supported (platform h) (arch h)
    then documentedDistribution (platform h) (arch h)
    else {| packageName := None;
            subpath := if String.eqb (platform h) "win32"
                       then "bin/gsoc2-cli.exe" else "bin/gsoc2-cli" |}.
Proof.
  destruct h as [p a env dir res ex req].
  unfold getDistributionForThisPlatform, supported, documentedDistribution;
  cbn -[String.eqb].
  split_platform p a ltac:(reflexivity).
Qed.

Ltac listed := intros; by repeat first [apply list_elem_of_here | apply list_elem_of_further].

Lemma documentedDistribution_listed (p a : string) :
  supported p a = true → documentedDistribution p a ∈ BINARY_DISTRIBUTIONS.
Proof.
  unfold supported, documentedDistribution, BINARY_DISTRIBUTIONS.
  split_platform p a ltac:(first [discriminate | listed]).
Qed.

(** C6.  On every supported (OS, architecture) pair the distribution chosen
    by [getDistributionForThisPlatform] is the row of the documented table
    (and one of [BINARY_DISTRIBUTIONS]); its subpath is [bin/gsoc2-cli.exe]
    on win32 and [bin/gsoc2-cli] elsewhere; and when resolution reaches the
    companion package, the path returned is the one the package lookup gives
    for that package and subpath. *)
Theorem distribution_matches_documented_table (h : Host) :
  supported (platform h) (arch h) = true →
  getDistributionForThisPlatform h = documentedDistribution (platform h) (arch h)
  ∧ getDistributionForThisPlatform h ∈ BINARY_DISTRIBUTIONS
  ∧ subpath (getDistributionForThisPlatform h) =
      (if String.eqb (platform h) "win32" then "bin/gsoc2-cli.exe" else "bin/gsoc2-cli")
  ∧ ∀ m file,
      mockedBinaryPath m = None →
      envPath h "GSOC2_BINARY_PATH" = None →
      fs_existsSync h (getFallbackBinaryPath h) = false →
      require_resolve h (packagePath (documentedDistribution (platform h) (arch h)))
        = Some file →
      (getPath m h).2 = JS.Return file.
Proof.
  intros Hs. pose proof (getDistributionForThisPlatform_table h) as Ht.
  rewrite Hs in Ht. repeat split.
  - exact Ht.
  - rewrite Ht. by apply documentedDistribution_listed.
  - rewrite Ht. unfold documentedDistribution; cbn -[String.eqb].
    by rewrite bool_decide_eqb.
  - intros m file Hm He Hf Hr.
    rewrite getPath_unmocked by done. unfold getBinaryPath.
    rewrite He, Hf, Ht, Hr.
    pose proof (documentedDistribution_listed _ _ Hs) as Hin.
    destruct (packageName (documentedDistribution (platform h) (arch h))) eqn:Hp; [done|].
    exfalso. revert Hin Hp. generalize (documentedDistribution (platform h) (arch h)).
    intros d Hin. unfold BINARY_DISTRIBUTIONS in Hin.
    repeat (apply elem_of_cons in Hin as [->|Hin]; [done|]).
    by apply elem_of_nil in Hin.
Qed.

Lemma distribution_matches_documented_table_witness :
  let h := machine "win32" "ia32" ∅ []
             {[ "@gsoc2/cli-win32-i686/bin/gsoc2-cli.exe" := "C:/cli/bin/gsoc2-cli.exe" ]} in
  supported (platform h) (arch h) = true
  ∧ getDistributionForThisPlatform h =
      {| packageName := Some "@gsoc2/cli-win32-i686"; subpath := "bin/gsoc2-cli.exe" |}
  ∧ (getPath initial h).2 = JS.Return "C:/cli/bin/gsoc2-cli.exe".
Proof.
  intros h.
  assert (Hs : supported (platform h) (arch h) = true) by reflexivity.
  destruct (distribution_matches_documented_table h Hs) as (Hd & _ & _ & Hp).
  split; [exact Hs|]. split; [exact Hd|].
  apply Hp; reflexivity.
Defined.

(** C4, as stated, fails: with [GSOC2_BINARY_PATH] set and a path
    substituted through [mockBinaryPath], [getPath] returns the substituted
    path and not the one from the environment. *)
Lemma override_over_mock_counterexample :
  let h := machine "linux" "x64" {[ "GSOC2_BINARY_PATH" := "/opt/env/gsoc2-cli" ]} [] ∅ in
  let m := mockBinaryPath "/tmp/mock/gsoc2-cli" initial in
  envPath h "GSOC2_BINARY_PATH" = Some "/opt/env/gsoc2-cli"
  ∧ mockedBinaryPath m = Some "/tmp/mock/gsoc2-cli"
  ∧ (getPath m h).2 = JS.Return "/tmp/mock/gsoc2-cli"
  ∧ (getPath m h).2 ≠ JS.Return "/opt/env/gsoc2-cli".
Proof. cbv zeta. repeat split; try reflexivity. discriminate. Qed.

(** C4, amended.  When both the environment override and the test
    substitution are set, [getPath] returns the substituted path verbatim
    and performs no lookup; the environment override is returned verbatim
    when no substitution is in place. *)
Theorem mock_wins_over_override (m : Helper) (h : Host) (mockPath override : string) :
  envPath h "GSOC2_BINARY_PATH" = Some override →
  getPath (mockBinaryPath mockPath m) h = ([], JS.Return mockPath)
  ∧ (mockedBinaryPath m = None → getPath m h = ([], JS.Return override)).
Proof.
  intros He. split.
  - by apply getPath_mocked.
  - intros Hm. rewrite getPath_unmocked by done. by apply getBinaryPath_override.
Qed.

Lemma mock_wins_over_override_witness :
  let h := machine "linux" "x64" {[ "GSOC2_BINARY_PATH" := "/opt/env/gsoc2-cli" ]} [] ∅ in
  envPath h "GSOC2_BINARY_PATH" = Some "/opt/env/gsoc2-cli"
  ∧ getPath (mockBinaryPath "/tmp/mock/gsoc2-cli" initial) h
      = ([], JS.Return "/tmp/mock/gsoc2-cli")
  ∧ getPath initial h = ([], JS.Return "/opt/env/gsoc2-cli").
Proof.
  intros h.
  assert (He : envPath h "GSOC2_BINARY_PATH" = Some "/opt/env/gsoc2-cli") by reflexivity.
  destruct (mock_wins_over_override initial h "/tmp/mock/gsoc2-cli" _ He) as [Hm Ho].
  split; [exact He|]. split; [exact Hm|]. apply Ho. reflexivity.
Defined.

(** C5, as stated, fails: on an unsupported platform where the fallback
    binary exists (and nothing is overridden), resolution does not return
    the fallback path; it throws the unsupported-platform error. *)
Lemma fallback_on_unsupported_counterexample :
  let h := machine "sunos" "x64" ∅ ["/app/node_modules/@gsoc2/cli/js/../gsoc2-cli"] ∅ in
  supported (platform h) (arch h) = false
  ∧ envPath h "GSOC2_BINARY_PATH" = None
  ∧ fs_existsSync h (getFallbackBinaryPath h) = true
  ∧ (getPath initial h).2 = JS.Throw (JS.Error unsupportedPlatformMessage)
  ∧ (getPath initial h).2 ≠ JS.Return (getFallbackBinaryPath h).
Proof. cbv zeta. repeat split; try reflexivity. discriminate. Qed.

(** C5, amended.  On every unsupported (OS, architecture) pair the
    substituted path and the environment override still resolve; without
    them resolution throws the unsupported-platform error, whose message
    lists the supported platforms, and it does so before any lookup: the
    fallback location is not consulted (whether or not a file exists there)
    and the companion package is never looked up. *)
Theorem unsupported_platform_resolution (m : Helper) (h : Host) :
  supported (platform h) (arch h) = false →
  (∀ mocked, mockedBinaryPath m = Some mocked → getPath m h = ([], JS.Return mocked))
  ∧ (∀ override,
       mockedBinaryPath m = None → envPath h "GSOC2_BINARY_PATH" = Some override →
       getPath m h = ([], JS.Return override))
  ∧ (mockedBinaryPath m = None → envPath h "GSOC2_BINARY_PATH" = None →
     getPath m h = ([], JS.Throw (JS.Error unsupportedPlatformMessage)))
  ∧ includes "- Darwin (macOS)" unsupportedPlatformMessage = true
  ∧ includes "- Linux and FreeBSD on x64, x86, ia32, arm64, and arm architectures"
      unsupportedPlatformMessage = true
  ∧ includes "- Windows x64, x86, and ia32 architectures" unsupportedPlatformMessage = true.
Proof.
  intros Hs. pose proof (getDistributionForThisPlatform_table h) as Ht.
  rewrite Hs in Ht. repeat split.
  - intros mocked. apply getPath_mocked.
  - intros override Hm He. rewrite getPath_unmocked by done.
    by apply getBinaryPath_override.
  - intros Hm He. rewrite getPath_unmocked by done.
    apply getBinaryPath_unsupported; [done|]. by rewrite Ht.
Qed.

Lemma unsupported_platform_resolution_witness :
  let h := machine "sunos" "x64" ∅ ["/app/node_modules/@gsoc2/cli/js/../gsoc2-cli"] ∅ in
  supported (platform h) (arch h) = false
  ∧ getPath initial h = ([], JS.Throw (JS.Error unsupportedPlatformMessage)).
Proof.
  intros h.
  assert (Hs : supported (platform h) (arch h) = false) by reflexivity.
  destruct (unsupported_platform_resolution initial h Hs) as (_ & _ & Hu & _).
  split; [exact Hs|]. apply Hu; reflexivity.
Defined.

(** ** Serialization: results *)

Section serialization.

Implicit Types (schema : OptionsSchema) (options : Options) (acc : list JS.Value).

Lemma concat_array acc (l : list JS.Value) : JS.concat acc [JS.Arr l] = acc ++ l.
Proof. unfold JS.concat; simpl. by rewrite app_nil_r. Qed.

Lemma spread_flagValue (p : option string) : JS.spread (flagValue p) = [flagValue p].
Proof. by destruct p. Qed.

Lemma concat_flag_value acc (p : option string) (v : JS.Value) :
  JS.concat acc [flagValue p; v] = acc ++ flagValue p :: JS.spread v.
Proof. unfold JS.concat; simpl. by rewrite spread_flagValue, app_nil_r. Qed.

(** The inner reduction builds the flattened pairs, front to back. *)
Lemma arrayArguments_contribution (p : option string) (elems : list JS.Value) :
  arrayArguments p elems = arrayContribution (flagValue p) elems.
Proof.
  unfold arrayArguments, arrayContribution.
  enough (∀ acc,
    fold_left (λ r value,
        JS.concat r [JS.Arr [flagValue p; JS.Str (JS.String value)]]) elems acc
    = acc ++ elems ≫= (λ element, [flagValue p; JS.Str (JS.String element)])) as H
    by apply (H []).
  induction elems as [|x elems IH]; intros acc; simpl.
  - by rewrite app_nil_r.
  - rewrite IH, concat_array. by rewrite <- app_assoc.
Qed.

(** One step of the reduction appends the entry's contribution. *)
Lemma serializeOption_contribution schema options acc name entry :
  prop schema name = Some entry →
  serializeOption schema options acc name =
    let! tokens := contribution JS.spread name entry (get options name) in
    JS.Return (acc ++ tokens).
Proof.
  intros Hp. unfold serializeOption, contribution. rewrite Hp.
  rewrite !bool_decide_eqb.
  destruct (JS.nullish (get options name)) eqn:Hn; simpl.
  { by rewrite app_nil_r. }
  destruct (String.eqb (type entry) "array").
  { destruct (get options name); simpl; try done.
    by rewrite concat_array, arrayArguments_contribution. }
  destruct (String.eqb (type entry) "boolean").
  { destruct (get options name) as [| |[]| | | |]; simpl; try done.
    - destruct (param entry); simpl; by rewrite ?concat_array, ?app_nil_r.
    - destruct (invertedParam entry); simpl; by rewrite ?concat_array, ?app_nil_r. }
  simpl. by rewrite concat_flag_value.
Qed.

Lemma serialize_thrown schema options (keys : list string) (e : JS.Exn) :
  fold_left
    (λ r option, let! newOptions := r in serializeOption schema options newOptions option)
    keys (JS.Throw e) = JS.Throw e.
Proof. by induction keys. Qed.

Lemma serialize_from schema options (entries : OptionsSchema) acc :
  (∀ name entry, (name, entry) ∈ entries → prop schema name = Some entry) →
  fold_left
    (λ r option, let! newOptions := r in serializeOption schema options newOptions option)
    (Object_keys entries) (JS.Return acc)
  = let! more := serializeEntries JS.spread entries options in JS.Return (acc ++ more).
Proof.
  revert acc. induction entries as [|[name entry] entries IH]; intros acc Hall; simpl.
  - by rewrite app_nil_r.
  - rewrite (serializeOption_contribution _ _ _ _ entry)
      by (apply Hall; apply list_elem_of_here).
    destruct (contribution JS.spread name entry (get options name)) as [tokens|e]; simpl.
    + rewrite IH by (intros ???; apply Hall; by apply list_elem_of_further).
      destruct (serializeEntries JS.spread entries options); simpl; [|done].
      by rewrite app_assoc.
    + apply serialize_thrown.
Qed.

(** In an object, a key reads its own entry. *)
Lemma prop_NoDup {A} (o : list (string * A)) name (a : A) :
  NoDup (Object_keys o) → (name, a) ∈ o → prop o name = Some a.
Proof.
  unfold Object_keys. induction o as [|[k b] o IH]; simpl.
  - by intros _ ?%elem_of_nil.
  - intros [Hk Hnd]%NoDup_cons [[= -> ->]|Hin]%elem_of_cons.
    + by rewrite String.eqb_refl.
    + destruct (String.eqb_spec k name) as [->|_]; [|by apply IH].
      destruct Hk. apply list_elem_of_fmap. by exists (name, a).
Qed.

End serialization.

Lemma serializeEntries_ext (f g : JS.Value → list JS.Value)
    (entries : OptionsSchema) (options : Options) :
  (∀ name entry, (name, entry) ∈ entries →
     type entry ≠ "array" → type entry ≠ "boolean" →
     f (get options name) = g (get options name)) →
  serializeEntries f entries options = serializeEntries g entries options.
Proof.
  induction entries as [|[name entry] entries IH]; intros Hfg; simpl; [done|].
  rewrite IH by (intros ???; apply Hfg; by apply list_elem_of_further).
  enough (contribution f name entry (get options name)
          = contribution g name entry (get options name)) as -> by done.
  unfold contribution.
  destruct (JS.nullish (get options name)); [done|].
  case_bool_decide; [done|]. case_bool_decide; [done|].
  by rewrite (Hfg name entry) by (done || apply list_elem_of_here).
Qed.

Example serialize_array_option :
  serializeOptions
    [("paths", {| param := Some "--path"; type := "array"; invertedParam := None |})]
    {[ "paths" := JS.Arr [JS.Str "a"; JS.Str "b"] ]}
  = JS.Return [JS.Str "--path"; JS.Str "a"; JS.Str "--path"; JS.Str "b"].
Proof. reflexivity. Qed.

Example serialize_boolean_option :
  let yes := {| param := Some "--yes"; type := "boolean"; invertedParam := Some "--no" |} in
  let plain := {| param := Some "--yes"; type := "boolean"; invertedParam := None |} in
  serializeOptions [("yes", yes)] {[ "yes" := JS.Bool true ]} = JS.Return [JS.Str "--yes"]
  ∧ serializeOptions [("yes", yes)] {[ "yes" := JS.Bool false ]} = JS.Return [JS.Str "--no"]
  ∧ serializeOptions [("yes", plain)] {[ "yes" := JS.Bool false ]} = JS.Return []
  ∧ serializeOptions [("yes", plain)] {[ "yes" := JS.Str "true" ]}
    = JS.Throw (JS.Error "yes should be a bool").
Proof. repeat split. Qed.

Example serialize_typed_token :
  serializeOptions
    [("time", {| param := Some "--time"; type := "number"; invertedParam := None |})]
    {[ "time" := JS.Num 30 ]}
  = JS.Return [JS.Str "--time"; JS.Num 30].
Proof. reflexivity. Qed.

(** C1, as stated, fails: for an option of another declared type whose
    value is an array, [concat] splices the elements in after the flag,
    where the documented serializer contributes the flag and the array as
    one token. *)
Lemma array_value_is_spliced_counterexample :
  let schema := [("ext", {| param := Some "--ext"; type := "string"; invertedParam := None |})] in
  let options : Options := {[ "ext" := JS.Arr [JS.Str "js"; JS.Str "map"] ]} in
  serializeOptions schema options = JS.Return [JS.Str "--ext"; JS.Str "js"; JS.Str "map"]
  ∧ documentedSerializer schema options
    = JS.Return [JS.Str "--ext"; JS.Arr [JS.Str "js"; JS.Str "map"]]
  ∧ serializeOptions schema options ≠ documentedSerializer schema options.
Proof. cbv zeta. repeat split. discriminate. Qed.

(** C1, amended.  On every schema object, [serializeOptions] equals the
    reference serializer in which an option of another declared type
    contributes its flag followed by the value verbatim when the value is
    not an array, and by the value's elements when it is: entries are taken
    in schema order, absent values contribute nothing, array options
    contribute flattened [flag, String(element)] pairs or fail naming the
    option, boolean options contribute the flag or the inverted flag when
    declared or fail naming the option.  Wherever no such value is an array
    this is the documented serializer. *)
Theorem serializeOptions_reference (schema : OptionsSchema) (options : Options) :
  NoDup (Object_keys schema) →
  serializeOptions schema options = splicingSerializer schema options
  ∧ ((∀ name entry, (name, entry) ∈ schema →
        type entry ≠ "array" → type entry ≠ "boolean" →
        JS.isArray (get options name) = None) →
     serializeOptions schema options = documentedSerializer schema options).
Proof.
  intros Hnd.
  assert (serializeOptions schema options = splicingSerializer schema options) as Hs.
  { unfold serializeOptions, splicingSerializer.
    rewrite serialize_from by (intros ???; by apply prop_NoDup).
    by destruct (serializeEntries JS.spread schema options). }
  split; [exact Hs|].
  intros Hna. rewrite Hs. apply serializeEntries_ext.
  intros name entry Hin Ha Hb. specialize (Hna name entry Hin Ha Hb).
  by destruct (get options name).
Qed.

Lemma serializeOptions_reference_witness :
  let schema := [
    ("ignore", {| param := Some "--ignore"; type := "array"; invertedParam := None |});
    ("rewrite", {| param := Some "--rewrite"; type := "boolean";
                   invertedParam := Some "--no-rewrite" |});
    ("ext", {| param := Some "--ext"; type := "string"; invertedParam := None |})] in
  let options : Options :=
    {[ "ignore" := JS.Arr [JS.Str "node_modules"; JS.Num 7];
       "rewrite" := JS.Bool false;
       "ext" := JS.Arr [JS.Str "js"; JS.Str "map"] ]} in
  NoDup (Object_keys schema)
  ∧ serializeOptions schema options = splicingSerializer schema options
  ∧ splicingSerializer schema options
    = JS.Return [JS.Str "--ignore"; JS.Str "node_modules"; JS.Str "--ignore"; JS.Str "7";
                 JS.Str "--no-rewrite"; JS.Str "--ext"; JS.Str "js"; JS.Str "map"].
Proof.
  intros schema options.
  assert (Hnd : NoDup (Object_keys schema)) by (apply (bool_decide_unpack _); vm_compute; exact I).
  split; [exact Hnd|]. split; [|reflexivity].
  exact (proj1 (serializeOptions_reference schema options Hnd)).
Defined.

(** ** prepareCommand *)

Lemma serializeOptions_no_options (schema : OptionsSchema) :
  ownNames schema → serializeOptions schema ∅ = JS.Return [].
Proof.
  intros _. unfold serializeOptions. induction (Object_keys schema) as [|k keys IH]; [done|].
  simpl. unfold serializeOption at 2. unfold get. by rewrite lookup_empty.
Qed.

(** With an array of command tokens the result is the tokens followed by
    the serialized options. *)
Lemma prepareCommand_tokens (command tokens : list JS.Value)
    (schema : option OptionsSchema) (options : option Options) :
  serializeOptions (default [] schema) (default ∅ options) = JS.Return tokens →
  prepareCommand (JS.Arr command) schema options = JS.Return (JS.Arr (command ++ tokens)).
Proof. unfold prepareCommand; simpl. intros ->; simpl. by rewrite concat_array. Qed.

(** With a literal command name the result is one string: the name with
    the comma-joined serialized options appended. *)
Lemma prepareCommand_name (command : string) (tokens : list JS.Value)
    (schema : option OptionsSchema) (options : option Options) :
  serializeOptions (default [] schema) (default ∅ options) = JS.Return tokens →
  prepareCommand (JS.Str command) schema options
  = JS.Return (JS.Str (command +:+ JS.String (JS.Arr tokens))).
Proof. unfold prepareCommand; simpl. by intros ->. Qed.

Lemma prepareCommand_releases_new (schema : OptionsSchema) :
  ownNames schema →
  prepareCommand (JS.Arr [JS.Str "releases"; JS.Str "new"]) (Some schema) (Some ∅)
  = JS.Return (JS.Arr [JS.Str "releases"; JS.Str "new"]).
Proof.
  intros Ho. rewrite (prepareCommand_tokens _ []); [done|].
  by apply serializeOptions_no_options.
Qed.

(** C9 at the failing input.  For a command given as a literal string (the
    documented parameter type) [concat] is the string method: the result is
    one string, the command name with the comma-joined options appended,
    and not the list of tokens. *)
Theorem prepareCommand_literal_string :
  let schema := [("env", {| param := Some "--env"; type := "string"; invertedParam := None |})] in
  prepareCommand (JS.Str "deploys") (Some schema) (Some {[ "env" := JS.Str "production" ]})
    = JS.Return (JS.Str "deploys--env,production")
  ∧ prepareCommand (JS.Str "releases") None None = JS.Return (JS.Str "releases")
  ∧ prepareCommand (JS.Arr [JS.Str "deploys"]) (Some schema)
      (Some {[ "env" := JS.Str "production" ]})
    = JS.Return (JS.Arr [JS.Str "deploys"; JS.Str "--env"; JS.Str "production"]).
Proof. repeat split. Qed.

(** ** The child environment: results *)

Section environment.

Implicit Types (h : Host) (env : gmap string JS.Value) (config : Options).

Lemma lookup_setIf (var : string) (value : JS.Value) env (name : string) :
  setIf var value env !! name =
    if JS.truthy value && String.eqb var name then Some value else env !! name.
Proof.
  unfold setIf. destruct (JS.truthy value); simpl; [|done].
  destruct (String.eqb_spec var name) as [->|Hne].
  - apply lookup_insert_eq.
  - by apply lookup_insert_ne.
Qed.

Lemma setIf_truthy (var : string) (value : JS.Value) env :
  JS.truthy value = true → setIf var value env = <[var := value]> env.
Proof. unfold setIf. by intros ->. Qed.

Lemma setIf_falsy (var : string) (value : JS.Value) env :
  JS.truthy value = false → setIf var value env = env.
Proof. unfold setIf. by intros ->. Qed.

(** The environment half of [childEnvironment] is the chain of the nine
    conditional assignments, whatever happens to the arguments. *)
Lemma childEnvironment_env h (args : list JS.Value) (configFile : JS.Value)
    (config : option Options) :
  (childEnvironment h args configFile config).1 =
    let config := default ∅ config in
    setIf "CUSTOM_HEADER" (get config "customHeader")
      (setIf "GSOC2_VCS_REMOTE" (get config "vcsRemote")
        (setIf "GSOC2_PROJECT" (get config "project")
          (setIf "GSOC2_ORG" (get config "org")
            (setIf "GSOC2_DSN" (get config "dsn")
              (setIf "GSOC2_API_KEY" (get config "apiKey")
                (setIf "GSOC2_AUTH_TOKEN" (get config "authToken")
                  (setIf "GSOC2_URL" (get config "url")
                    (setIf "GSOC2_PROPERTIES" configFile
                      (JS.Str <$> process_env h))))))))).
Proof.
  unfold childEnvironment; cbv zeta.
  destruct (JS.truthy (get (default ∅ config) "customHeader")) eqn:Hc.
  - by rewrite (setIf_truthy "CUSTOM_HEADER").
  - rewrite (setIf_falsy "CUSTOM_HEADER") by done.
    by destruct (JS.truthy (get (default ∅ config) "headers")).
Qed.

Ltac split_variable name var :=
  let E := fresh "E" in
  destruct (String.eqb var name) eqn:E; cbn -[String.eqb];
  rewrite ?andb_true_r, ?andb_false_r; cbn -[String.eqb].

Lemma childEnvironment_lookup h (args : list JS.Value) (configFile : JS.Value)
    (config : option Options) (name : string) :
  (childEnvironment h args configFile config).1 !! name
  = documentedEnvironment h configFile (default ∅ config) name.
Proof.
  rewrite childEnvironment_env; cbv zeta.
  unfold documentedEnvironment, configurationVariables, fieldVariables.
  rewrite !lookup_setIf, lookup_fmap. cbn -[String.eqb].
  generalize (get (default ∅ config) "url") (get (default ∅ config) "authToken")
    (get (default ∅ config) "apiKey") (get (default ∅ config) "dsn")
    (get (default ∅ config) "org") (get (default ∅ config) "project")
    (get (default ∅ config) "vcsRemote") (get (default ∅ config) "customHeader").
  intros url authToken apiKey dsn org project vcsRemote customHeader.
  split_variable name "GSOC2_PROPERTIES"; split_variable name "GSOC2_URL";
  split_variable name "GSOC2_AUTH_TOKEN"; split_variable name "GSOC2_API_KEY";
  split_variable name "GSOC2_DSN"; split_variable name "GSOC2_ORG";
  split_variable name "GSOC2_PROJECT"; split_variable name "GSOC2_VCS_REMOTE";
  split_variable name "CUSTOM_HEADER"; try clash_names;
  repeat match goal with |- context [JS.truthy ?v] => destruct (JS.truthy v) end;
  reflexivity.
Qed.

(** The arguments half: untouched under a custom header, the header pairs
    in front under a header mapping alone. *)
Lemma childEnvironment_args h (args : list JS.Value) (configFile : JS.Value)
    (config : option Options) :
  (childEnvironment h args configFile config).2 =
    let config := default ∅ config in
    if JS.truthy (get config "customHeader") then args
    else if JS.truthy (get config "headers")
         then headerArguments (get config "headers") ++ args
         else args.
Proof.
  unfold childEnvironment; cbv zeta.
  destruct (JS.truthy (get (default ∅ config) "customHeader")); [done|].
  by destruct (JS.truthy (get (default ∅ config) "headers")).
Qed.

(** Reading a configuration from which a falsy field was removed. *)
Lemma get_delete_falsy config (field key : string) :
  JS.truthy (get config field) = false →
  JS.truthy (get (delete field config) key) = JS.truthy (get config key)
  ∧ (JS.truthy (get config key) = true → get (delete field config) key = get config key).
Proof.
  intros Hf. unfold get in *.
  destruct (decide (field = key)) as [->|Hne].
  - rewrite lookup_delete_eq; simpl. rewrite Hf. by split.
  - by rewrite lookup_delete_ne.
Qed.

Lemma setIf_delete_falsy config (field key var : string) env :
  JS.truthy (get config field) = false →
  setIf var (get (delete field config) key) env = setIf var (get config key) env.
Proof.
  intros Hf. destruct (get_delete_falsy config field key Hf) as [Ht Hv].
  unfold setIf. rewrite Ht.
  destruct (JS.truthy (get config key)); [|done]. by rewrite Hv.
Qed.

Lemma childEnvironment_delete_falsy h (args : list JS.Value) (configFile : JS.Value)
    config (field : string) :
  JS.truthy (get config field) = false →
  childEnvironment h args configFile (Some (delete field config))
  = childEnvironment h args configFile (Some config).
Proof.
  intros Hf. unfold childEnvironment; cbv zeta.
  change (default ∅ (Some (delete field config))) with (delete field config).
  change (default ∅ (Some config)) with config.
  rewrite !(setIf_delete_falsy _ _ _ _ _ Hf).
  destruct (get_delete_falsy config field "customHeader" Hf) as [-> Hc].
  destruct (get_delete_falsy config field "headers" Hf) as [-> Hh].
  destruct (JS.truthy (get config "customHeader")); [by rewrite Hc|].
  destruct (JS.truthy (get config "headers")); [by rewrite Hh|done].
Qed.

Lemma childEnvironment_falsy_configFile h (args : list JS.Value) (configFile : JS.Value)
    (config : option Options) :
  JS.truthy configFile = false →
  childEnvironment h args configFile config = childEnvironment h args JS.Undefined config.
Proof. intros Hf. unfold childEnvironment. by rewrite !(setIf_falsy "GSOC2_PROPERTIES"). Qed.

End environment.

Section execute_environment.

Implicit Types (h : Host) (m : Helper) (run : Request → ProcessResult).

Lemma prop_not_listed {A} (o : list (string * A)) (name : string) :
  name ∉ Object_keys o → prop o name = None.
Proof.
  unfold Object_keys. induction o as [|[k a] o IH]; simpl; [done|].
  intros [Hk Ho]%not_elem_of_cons.
  destruct (String.eqb_spec k name) as [->|_]; [done|]. by apply IH.
Qed.

(** The request that [execute] makes carries the environment and the
    arguments computed by [childEnvironment]. *)
Lemma execute_request m h run (args : list JS.Value) (live silent configFile : JS.Value)
    (config : option Options) (r : Request) :
  request (execute m h run args live silent configFile config) = Some r →
  envOf r = (childEnvironment h args configFile config).1
  ∧ argsOf r = (childEnvironment h args configFile config).2.
Proof.
  unfold execute.
  destruct (childEnvironment h args configFile config) as [env args'].
  destruct (getPath m h) as [ps [file|e]];
    destruct live as [| |[]| | | |]; simpl; intros [= <-]; done.
Qed.

(** C7.  For every configuration file argument and every configuration,
    the environment that [execute] builds for the child reads, at every
    name, as documented: the variable of a provided source (the provision
    test of the code is truthiness) carries that source's value, and every
    other name, the variable of a source that is not provided included,
    reads as in the parent's environment.  This is the environment of the
    request made.  With [url] and [authToken] alone, exactly [GSOC2_URL] and
    [GSOC2_AUTH_TOKEN] are laid over the copy. *)
Theorem child_environment_overlay h (args : list JS.Value) (configFile : JS.Value)
    (config : option Options) :
  let env := (childEnvironment h args configFile config).1 in
  (∀ name, env !! name = documentedEnvironment h configFile (default ∅ config) name)
  ∧ (∀ name,
       name ∉ Object_keys (configurationVariables configFile (default ∅ config)) →
       env !! name = JS.Str <$> process_env h !! name)
  ∧ (∀ m run live silent r,
       request (execute m h run args live silent configFile config) = Some r →
       envOf r = env)
  ∧ (∀ url authToken : string,
       url ≠ "" → authToken ≠ "" →
       (childEnvironment h args JS.Undefined
          (Some {[ "url" := JS.Str url; "authToken" := JS.Str authToken ]})).1
       = <["GSOC2_AUTH_TOKEN" := JS.Str authToken]>
           (<["GSOC2_URL" := JS.Str url]> (JS.Str <$> process_env h))).
Proof.
  cbv zeta. split; [|split; [|split]].
  - apply childEnvironment_lookup.
  - intros name Hn. rewrite childEnvironment_lookup. unfold documentedEnvironment.
    by rewrite prop_not_listed.
  - intros m run live silent r Hr. by apply execute_request in Hr as [? _].
  - intros url authToken Hu Ha.
    assert (∀ s : string, s ≠ "" → JS.truthy (JS.Str s) = true) as Ht.
    { intros s Hs; simpl. by destruct (String.eqb_spec s "") as [->|_]. }
    rewrite childEnvironment_env. cbv zeta.
    change (default ∅ (Some ?c)) with c.
    set (c := {[ "url" := JS.Str url; "authToken" := JS.Str authToken ]} : Options).
    change (get c "url") with (JS.Str url).
    change (get c "authToken") with (JS.Str authToken).
    change (get c "apiKey") with JS.Undefined.
    change (get c "dsn") with JS.Undefined.
    change (get c "org") with JS.Undefined.
    change (get c "project") with JS.Undefined.
    change (get c "vcsRemote") with JS.Undefined.
    change (get c "customHeader") with JS.Undefined.
    rewrite !(setIf_falsy _ JS.Undefined) by done.
    by rewrite !setIf_truthy by auto.
Qed.

Lemma child_environment_overlay_witness :
  let h := machine "linux" "x64" {[ "HOME" := "/root"; "GSOC2_ORG" := "acme" ]} [] ∅ in
  let config : Options := {[ "url" := JS.Str "https://x"; "authToken" := JS.Str "t" ]} in
  let env := (childEnvironment h [] JS.Undefined (Some config)).1 in
  env = <["GSOC2_AUTH_TOKEN" := JS.Str "t"]>
          (<["GSOC2_URL" := JS.Str "https://x"]> (JS.Str <$> process_env h))
  ∧ env !! "GSOC2_ORG" = Some (JS.Str "acme")
  ∧ env !! "HOME" = Some (JS.Str "/root")
  ∧ env !! "GSOC2_DSN" = None.
Proof.
  intros h config env.
  destruct (child_environment_overlay h [] JS.Undefined (Some config)) as (Hl & Hf & _ & Hx).
  split; [apply Hx; discriminate|].
  split; [exact (Hl "GSOC2_ORG")|].
  split; [|exact (Hl "GSOC2_DSN")].
  apply (Hf "HOME"). apply (bool_decide_unpack _). vm_compute. exact I.
Defined.

(** C8.  When [config] has a custom header (by the truthiness test of the
    code), it is what takes effect: it becomes [CUSTOM_HEADER] and the
    arguments are the caller's, whatever the header mapping holds.  When
    there is no custom header and [headers] is a mapping, each of its
    entries, in the mapping's order, gives the two tokens [--header] and
    [key:value], and these come before the caller's arguments; the
    environment gets no [CUSTOM_HEADER] from it.  These are the arguments of
    the request made. *)
Theorem custom_header_overrides_headers h (args : list JS.Value) (configFile : JS.Value)
    (config : option Options) :
  let customHeader := get (default ∅ config) "customHeader" in
  let headers := get (default ∅ config) "headers" in
  let child := childEnvironment h args configFile config in
  (JS.truthy customHeader = true →
     child.2 = args ∧ child.1 !! "CUSTOM_HEADER" = Some customHeader)
  ∧ (∀ mapping,
       JS.truthy customHeader = false → headers = JS.Obj mapping →
       child.2 =
         (mapping ≫= λ '(key, value),
            [JS.Str "--header"; JS.Str (key +:+ ":" +:+ JS.String value)]) ++ args
       ∧ child.1 !! "CUSTOM_HEADER" = JS.Str <$> process_env h !! "CUSTOM_HEADER")
  ∧ (∀ m run live silent r,
       request (execute m h run args live silent configFile config) = Some r →
       argsOf r = child.2).
Proof.
  cbv zeta. split; [|split].
  - intros Hc. rewrite childEnvironment_args, childEnvironment_lookup. cbv zeta.
    rewrite Hc. split; [done|].
    unfold documentedEnvironment; cbn. by rewrite Hc.
  - intros mapping Hc Hh. rewrite childEnvironment_args, childEnvironment_lookup.
    cbv zeta. rewrite Hc, Hh; simpl. split; [done|].
    unfold documentedEnvironment; cbn. by rewrite Hc.
  - intros m run live silent r Hr. by apply execute_request in Hr as [_ ?].
Qed.

Lemma custom_header_overrides_headers_witness :
  let h := machine "linux" "x64" ∅ [] ∅ in
  let headers := JS.Obj [("X-B", JS.Str "2"); ("X-A", JS.Num 1)] in
  (childEnvironment h [JS.Str "info"] JS.Undefined
     (Some {[ "headers" := headers ]})).2
    = [JS.Str "--header"; JS.Str "X-B:2"; JS.Str "--header"; JS.Str "X-A:1"; JS.Str "info"]
  ∧ (childEnvironment h [JS.Str "info"] JS.Undefined
       (Some {[ "headers" := headers; "customHeader" := JS.Str "X-C: 3" ]})).2
    = [JS.Str "info"].
Proof.
  intros h headers. split.
  - destruct (custom_header_overrides_headers h [JS.Str "info"] JS.Undefined
                (Some {[ "headers" := headers ]})) as (_ & Hm & _).
    apply (Hm [("X-B", JS.Str "2"); ("X-A", JS.Num 1)]); reflexivity.
  - destruct (custom_header_overrides_headers h [JS.Str "info"] JS.Undefined
                (Some {[ "headers" := headers; "customHeader" := JS.Str "X-C: 3" ]}))
      as (Hc & _ & _).
    apply Hc; reflexivity.
Defined.

Lemma execute_childEnvironment m h run (args args' : list JS.Value)
    (live silent configFile configFile' : JS.Value) (config config' : option Options) :
  childEnvironment h args configFile config = childEnvironment h args' configFile' config' →
  execute m h run args live silent configFile config
  = execute m h run args' live silent configFile' config'.
Proof. unfold execute. by intros ->. Qed.

(** C10.  A field of [config] whose value is falsy (the empty string,
    [false], [0], [null], [undefined]) is to [execute] as a field that is
    not there: the execution is the one of the configuration without the
    field, and the variable of a recognized field so set reads as in the
    parent's environment.  A falsy [configFile] is likewise as an omitted
    one, and [GSOC2_PROPERTIES] reads as in the parent's environment. *)
Theorem falsy_field_is_absent m h run (args : list JS.Value)
    (live silent configFile : JS.Value) (config : Options) :
  (∀ field,
     JS.truthy (get config field) = false →
     execute m h run args live silent configFile (Some config)
     = execute m h run args live silent configFile (Some (delete field config))
     ∧ ∀ variable, (field, variable) ∈ fieldVariables →
         (childEnvironment h args configFile (Some config)).1 !! variable
         = JS.Str <$> process_env h !! variable)
  ∧ (JS.truthy configFile = false →
     execute m h run args live silent configFile (Some config)
     = execute m h run args live silent JS.Undefined (Some config)
     ∧ (childEnvironment h args configFile (Some config)).1 !! "GSOC2_PROPERTIES"
       = JS.Str <$> process_env h !! "GSOC2_PROPERTIES")
  ∧ JS.truthy (JS.Str "") = false ∧ JS.truthy (JS.Bool false) = false
  ∧ JS.truthy (JS.Num 0) = false ∧ JS.truthy JS.Null = false.
Proof.
  split; [|split; [|done]].
  - intros field Hf. split.
    + apply execute_childEnvironment. symmetry. by apply childEnvironment_delete_falsy.
    + intros variable Hin. rewrite childEnvironment_lookup.
      unfold documentedEnvironment, fieldVariables in *.
      repeat (apply elem_of_cons in Hin as [[= -> ->]|Hin];
              [cbn; by rewrite Hf|]).
      by apply elem_of_nil in Hin.
  - intros Hf. split.
    + apply execute_childEnvironment. by apply childEnvironment_falsy_configFile.
    + rewrite childEnvironment_lookup. unfold documentedEnvironment; cbn. by rewrite Hf.
Qed.

Lemma falsy_field_is_absent_witness :
  let h := machine "linux" "x64" {[ "GSOC2_URL" := "https://inherited" ]} [] ∅ in
  let config : Options := {[ "url" := JS.Str ""; "org" := JS.Num 0; "project" := JS.Str "web" ]} in
  (childEnvironment h [] (JS.Str "") (Some config)).1 !! "GSOC2_URL"
    = Some (JS.Str "https://inherited")
  ∧ (childEnvironment h [] (JS.Str "") (Some config)).1 !! "GSOC2_ORG" = None
  ∧ (childEnvironment h [] (JS.Str "") (Some config)).1 !! "GSOC2_PROPERTIES" = None.
Proof.
  intros h config.
  destruct (falsy_field_is_absent initial h (λ _, Exit 0 "") [] JS.Null JS.Null
              (JS.Str "") config) as (Hfield & Hfile & _).
  split; [|split].
  - refine (proj2 (Hfield "url" _) "GSOC2_URL" _); [reflexivity|].
    apply (bool_decide_unpack _). vm_compute. exact I.
  - refine (proj2 (Hfield "org" _) "GSOC2_ORG" _); [reflexivity|].
    apply (bool_decide_unpack _). vm_compute. exact I.
  - apply Hfile. reflexivity.
Defined.

End execute_environment.

(** ** Running the binary: results *)

Section dispatch.

Implicit Types (h : Host) (m : Helper) (run : Request → ProcessResult).

(** C2, as stated, fails: in buffered mode the helper calls [execFile] with
    the environment as its only option, so the child's standard input is a
    pipe left open, not a closed stream as in live mode. *)
Lemma buffered_stdin_counterexample :
  let h := machine "linux" "x64" ∅ [] ∅ in
  let m := mockBinaryPath "/usr/bin/gsoc2-cli" initial in
  let x := execute m h (exits 0) [JS.Str "--version"] (JS.Bool false) (JS.Bool false)
             JS.Undefined None in
  JS.truthy (JS.Bool false) = false
  ∧ request x = Some (execFile "/usr/bin/gsoc2-cli" [JS.Str "--version"] ∅)
  ∧ (stdioOption <$> request x) = Some None
  ∧ (stdinOf <$> request x) = Some pipe
  ∧ (stdinOf <$> request x) ≠ Some ignore.
Proof. cbv zeta. repeat split. discriminate. Qed.

(** C2, amended.  For every argument list, when [live] is falsy and the
    binary path resolves, [execute] runs the binary through [execFile] with
    the child environment and the arguments and no other option: standard
    input is not closed, and the default [maxBuffer] and decoding of
    [execFile] apply.  When the process exits with status 0 and its output
    is within [maxBuffer], the promise resolves with the captured standard
    output as decoded, not trimmed.  When the process exits with another
    status, or cannot be spawned, the promise rejects with the error of the
    runtime, which carries the exit status (or the errno name).  When the
    output exceeds [maxBuffer] (also after status 0), when the process is
    ended otherwise, or when the call throws, the promise rejects with the
    runtime's error; while the process does not end it stays pending. *)
Theorem buffered_execute m h run (args : list JS.Value) (live silent configFile : JS.Value)
    (config : option Options) (file : string) :
  JS.truthy live = false →
  (getPath m h).2 = JS.Return file →
  let x := execute m h run args live silent configFile config in
  let child := childEnvironment h args configFile config in
  let call := execFile file child.2 child.1 in
  request x = Some call
  ∧ stdioOption call = None
  ∧ (∀ stdout,
       run call = Exit 0 stdout → (Z.of_nat (String.length stdout) ≤ maxBuffer)%Z →
       promise x = Resolved (JS.Str stdout))
  ∧ (∀ status stdout,
       run call = Exit status stdout → status ≠ 0%Z →
       (Z.of_nat (String.length stdout) ≤ maxBuffer)%Z →
       promise x = Rejected (JS.ChildProcessError (JS.Num status)))
  ∧ (∀ errno,
       run call = SpawnFailure errno →
       promise x = Rejected (JS.ChildProcessError (JS.Str errno)))
  ∧ (∀ status stdout,
       run call = Exit status stdout → (maxBuffer < Z.of_nat (String.length stdout))%Z →
       promise x
       = Rejected (JS.ChildProcessError (JS.Str "ERR_CHILD_PROCESS_STDIO_MAXBUFFER")))
  ∧ (∀ e stdout, run call = Terminated e stdout → promise x = Rejected e)
  ∧ (∀ e, run call = SpawnThrows e → promise x = Rejected e)
  ∧ (run call = Running → promise x = Pending).
Proof.
  intros Hl Hp. cbv zeta. unfold execute.
  destruct (childEnvironment h args configFile config) as [env args'].
  destruct (getPath m h) as [ps path]; simpl in Hp; subst path.
  assert (∀ A (a b : A), match live with JS.Bool true => a | _ => b end = b) as Hb.
  { intros; by destruct live as [| |[]| | | |]. }
  rewrite Hb; cbn [request promise fst snd]. unfold execFileCallback.
  repeat split.
  - intros stdout -> Hfit. apply Z.ltb_ge in Hfit. by rewrite Hfit.
  - intros status stdout -> Hs Hfit. apply Z.ltb_ge in Hfit. rewrite Hfit.
    by destruct (Z.eqb_spec status 0).
  - by intros errno ->.
  - intros status stdout -> Hover. apply Z.ltb_lt in Hover. by rewrite Hover.
  - by intros e stdout ->.
  - by intros e ->.
  - by intros ->.
Qed.

Lemma buffered_execute_witness :
  let h := machine "linux" "x64" ∅ [] ∅ in
  let m := mockBinaryPath "/usr/bin/gsoc2-cli" initial in
  JS.truthy JS.Null = false
  ∧ (getPath m h).2 = JS.Return "/usr/bin/gsoc2-cli"
  ∧ promise (execute m h (exits 2) [JS.Str "info"] JS.Null (JS.Bool false) JS.Undefined None)
    = Rejected (JS.ChildProcessError (JS.Num 2))
  ∧ promise (execute m h (exits 0) [JS.Str "info"] JS.Null (JS.Bool false) JS.Undefined None)
    = Resolved (JS.Str "gsoc2-cli 2.0.0
").
Proof.
  intros h m.
  assert (Hl : JS.truthy JS.Null = false) by reflexivity.
  assert (Hp : (getPath m h).2 = JS.Return "/usr/bin/gsoc2-cli") by reflexivity.
  split; [exact Hl|]. split; [exact Hp|]. split.
  - destruct (buffered_execute m h (exits 2) [JS.Str "info"] JS.Null (JS.Bool false)
                JS.Undefined None _ Hl Hp) as (_ & _ & _ & Hr & _).
    apply (Hr 2%Z "gsoc2-cli 2.0.0
"); [reflexivity|discriminate|vm_compute; discriminate].
  - destruct (buffered_execute m h (exits 0) [JS.Str "info"] JS.Null (JS.Bool false)
                JS.Undefined None _ Hl Hp) as (_ & _ & H0 & _).
    apply H0; [reflexivity|vm_compute; discriminate].
Defined.




End dispatch.

(** ** Platform resolution: further results *)

Section resolution_further.

Implicit Types (h : Host) (d : Distribution).

(** A package is chosen exactly on the supported pairs. *)
Lemma packageName_supported h :
  is_Some (packageName (getDistributionForThisPlatform h))
  ↔ supported (platform h) (arch h) = true.
Proof.
  rewrite getDistributionForThisPlatform_table.
  destruct (supported (platform h) (arch h)) eqn:Hs; cbv iota.
  - split; [done|intros _].
    pose proof (documentedDistribution_listed _ _ Hs) as Hin.
    revert Hin. generalize (documentedDistribution (platform h) (arch h)).
    intros d Hin. unfold BINARY_DISTRIBUTIONS in Hin.
    repeat (apply elem_of_cons in Hin as [->|Hin]; [simpl; eauto|]).
    by apply elem_of_nil in Hin.
  - simpl. split; [by intros [? ?]|done].
Qed.

Lemma getDistributionForThisPlatform_listed h :
  supported (platform h) (arch h) = true →
  getDistributionForThisPlatform h ∈ BINARY_DISTRIBUTIONS.
Proof.
  intros Hs. rewrite getDistributionForThisPlatform_table, Hs.
  by apply documentedDistribution_listed.
Qed.

(** In the table a package name occurs once. *)
Lemma BINARY_DISTRIBUTIONS_packageName d1 d2 :
  d1 ∈ BINARY_DISTRIBUTIONS → d2 ∈ BINARY_DISTRIBUTIONS →
  packageName d1 = packageName d2 → d1 = d2.
Proof.
  unfold BINARY_DISTRIBUTIONS. intros H1 H2.
  repeat (apply elem_of_cons in H1 as [->|H1]);
    try (by apply elem_of_nil in H1);
    repeat (apply elem_of_cons in H2 as [->|H2]);
    try (by apply elem_of_nil in H2); simpl; intros [=]; reflexivity.
Qed.

(** X1.  [getBinaryPath] returns a path in three cases only, and says which:
    it is the environment override; or, on a supported platform without an
    override, the fallback path when a file exists there and otherwise the
    path to which the platform's own package resolves. *)
Theorem getBinaryPath_returns h (file : string) :
  (getBinaryPath h).2 = JS.Return file ↔
    envPath h "GSOC2_BINARY_PATH" = Some file
    ∨ (envPath h "GSOC2_BINARY_PATH" = None
       ∧ supported (platform h) (arch h) = true
       ∧ if fs_existsSync h (getFallbackBinaryPath h)
         then file = getFallbackBinaryPath h
         else require_resolve h (packagePath (getDistributionForThisPlatform h))
              = Some file).
Proof.
  pose proof (packageName_supported h) as Hs. unfold getBinaryPath.
  destruct (envPath h "GSOC2_BINARY_PATH") as [override|].
  { simpl. split; [intros [= ->]; by left|]. intros [[= ->]|[? _]]; done. }
  destruct (packageName (getDistributionForThisPlatform h)) as [expected|] eqn:Hp.
  - assert (supported (platform h) (arch h) = true) as Hsup by (apply Hs; by eexists).
    destruct (fs_existsSync h (getFallbackBinaryPath h)).
    { cbn [snd]. split; [intros [= ?]; subst; by right|].
      intros [?|(_ & _ & ?)]; by simplify_eq. }
    destruct (require_resolve h (packagePath (getDistributionForThisPlatform h)))
      as [compatible|].
    { cbn [snd]. split; [intros [= ?]; subst; by right|].
      intros [?|(_ & _ & ?)]; by simplify_eq. }
    destruct (findInstalled h BINARY_DISTRIBUTIONS) as [ps [other|]]; cbn [snd];
      (split; [done|by intros [|(_ & _ & ?)]]).
  - cbn [snd]. split; [done|]. intros [|(_ & Hsup & _)]; [done|].
    apply Hs in Hsup as [? ?]; congruence.
Qed.

(** X2.  With an override, or on a supported platform whose fallback binary
    exists, the companion package is never looked up: the override costs no
    lookup at all, the fallback one file test. *)
Theorem getBinaryPath_without_package_lookup h :
  (∀ override, envPath h "GSOC2_BINARY_PATH" = Some override →
     getBinaryPath h = ([], JS.Return override))
  ∧ (envPath h "GSOC2_BINARY_PATH" = None →
     supported (platform h) (arch h) = true →
     fs_existsSync h (getFallbackBinaryPath h) = true →
     getBinaryPath h
     = ([ExistsSync (getFallbackBinaryPath h)], JS.Return (getFallbackBinaryPath h))).
Proof.
  split; [intros override; apply getBinaryPath_override|].
  intros He Hs Hf. apply packageName_supported in Hs as [expected Hp].
  unfold getBinaryPath. by rewrite He, Hp, Hf.
Qed.

Lemma getBinaryPath_without_package_lookup_witness :
  let h := machine "win32" "x64" ∅ ["/app/node_modules/@gsoc2/cli/js/../gsoc2-cli.exe"] ∅ in
  getBinaryPath h
  = ([ExistsSync "/app/node_modules/@gsoc2/cli/js/../gsoc2-cli.exe"],
     JS.Return "/app/node_modules/@gsoc2/cli/js/../gsoc2-cli.exe").
Proof.
  intros h.
  apply (proj2 (getBinaryPath_without_package_lookup h)); reflexivity.
Defined.

End resolution_further.

Section not_found.

Implicit Types (h : Host) (d : Distribution).

Lemma prefix_app (needle rest : string) : String.prefix needle (needle +:+ rest) = true.
Proof.
  induction needle as [|c needle IH]; simpl; [by destruct rest|].
  by destruct (Ascii.ascii_dec c c).
Qed.

Lemma includes_here (needle rest : string) : includes needle (needle +:+ rest) = true.
Proof.
  assert (∀ hay, String.prefix needle hay = true → includes needle hay = true) as H.
  { intros [|c hay] Hp; cbn [includes]; by rewrite Hp. }
  apply H, prefix_app.
Qed.

Lemma includes_later (needle before hay : string) :
  includes needle hay = true → includes needle (before +:+ hay) = true.
Proof.
  intros Hn. induction before as [|c before IH]; simpl; [done|].
  rewrite IH. apply orb_true_r.
Qed.

Lemma append_assoc (a b c : string) : (a +:+ b) +:+ c = a +:+ b +:+ c.
Proof.
  induction a as [|x a IH]; [done|].
  change (String.String x ((a +:+ b) +:+ c) = String.String x (a +:+ b +:+ c)).
  by rewrite IH.
Qed.

Lemma includes_quoted (name rest : string) :
  includes (dq +:+ name +:+ dq) (dq +:+ name +:+ dq +:+ rest) = true.
Proof.
  rewrite <- (append_assoc name dq rest), <- (append_assoc dq (name +:+ dq) rest).
  apply includes_here.
Qed.

(** [findInstalled] stops at the first distribution whose package
    resolves: the ones before it do not resolve, each distribution up to it
    is looked up once, in order, and none after it. *)
Lemma findInstalled_first h (ds : list Distribution) :
  match (findInstalled h ds).2 with
  | Some other =>
      ∃ before after,
        ds = before ++ other :: after
        ∧ Forall (λ d, installed h d = false) before
        ∧ installed h other = true
        ∧ (findInstalled h ds).1 = (RequireResolve ∘ packagePath) <$> (before ++ [other])
  | None =>
      Forall (λ d, installed h d = false) ds
      ∧ (findInstalled h ds).1 = (RequireResolve ∘ packagePath) <$> ds
  end.
Proof.
  induction ds as [|d ds IH]; simpl; [by split|].
  unfold installed in *.
  destruct (require_resolve h (packagePath d)) as [file|] eqn:Hd; simpl.
  - exists [], ds. repeat split; [constructor|]. rewrite Hd. by apply bool_decide_true.
  - destruct (findInstalled h ds) as [ps [other|]]; simpl in *.
    + destruct IH as (before & after & -> & Hb & Ho & ->).
      exists (d :: before), after. repeat split; [|done].
      constructor; [|done]. rewrite Hd. apply bool_decide_false. by intros [? ?].
    + destruct IH as [Hall ->]. split; [|done].
      constructor; [|done]. rewrite Hd. apply bool_decide_false. by intros [? ?].
Qed.

Lemma findInstalled_found h (before after : list Distribution) (other : Distribution) :
  Forall (λ d, installed h d = false) before → installed h other = true →
  (findInstalled h (before ++ other :: after)).2 = Some other.
Proof.
  unfold installed. intros Hb Ho. induction Hb as [|d before Hd Hb IH]; simpl.
  - apply bool_decide_eq_true in Ho as [file ->]. done.
  - apply bool_decide_eq_false in Hd.
    destruct (require_resolve h (packagePath d)); [by destruct Hd|].
    by destruct (findInstalled h (before ++ other :: after)) as [ps found]; simpl in *.
Qed.

Lemma findInstalled_none h (ds : list Distribution) :
  Forall (λ d, installed h d = false) ds → (findInstalled h ds).2 = None.
Proof.
  unfold installed. induction 1 as [|d ds Hd Hds IH]; simpl; [done|].
  apply bool_decide_eq_false in Hd.
  destruct (require_resolve h (packagePath d)); [by destruct Hd|].
  by destruct (findInstalled h ds) as [ps found]; simpl in *.
Qed.

(** The shape of [getBinaryPath] once the platform's own package is needed
    and does not resolve. *)
Lemma getBinaryPath_missing h (expected : string) :
  envPath h "GSOC2_BINARY_PATH" = None →
  packageName (getDistributionForThisPlatform h) = Some expected →
  fs_existsSync h (getFallbackBinaryPath h) = false →
  require_resolve h (packagePath (getDistributionForThisPlatform h)) = None →
  getBinaryPath h =
    ([ExistsSync (getFallbackBinaryPath h);
      RequireResolve (packagePath (getDistributionForThisPlatform h))]
       ++ (findInstalled h BINARY_DISTRIBUTIONS).1,
     match (findInstalled h BINARY_DISTRIBUTIONS).2 with
     | Some other =>
         JS.Throw (JS.Error
           (wrongPackageMessage (default "undefined" (packageName other)) expected))
     | None => JS.Throw (JS.Error noOptionalDependenciesMessage)
     end).
Proof.
  intros He Hp Hf Hr. unfold getBinaryPath. rewrite He, Hp, Hf, Hr.
  by destruct (findInstalled h BINARY_DISTRIBUTIONS).
Qed.

(** X3.  When the platform's own package is needed and missing, and the
    package of another distribution is installed, the error is the
    wrong-package one.  It names as installed the first distribution of
    [BINARY_DISTRIBUTIONS] that resolves, which is never the expected one,
    and its message quotes both package names. *)
Theorem wrong_package_error h (expected : string)
    (before after : list Distribution) (other : Distribution) :
  envPath h "GSOC2_BINARY_PATH" = None →
  packageName (getDistributionForThisPlatform h) = Some expected →
  fs_existsSync h (getFallbackBinaryPath h) = false →
  installed h (getDistributionForThisPlatform h) = false →
  BINARY_DISTRIBUTIONS = before ++ other :: after →
  Forall (λ d, installed h d = false) before →
  installed h other = true →
  ∃ name,
    packageName other = Some name
    ∧ name ≠ expected
    ∧ (getBinaryPath h).2 = JS.Throw (JS.Error (wrongPackageMessage name expected))
    ∧ includes (dq +:+ name +:+ dq) (wrongPackageMessage name expected) = true
    ∧ includes (dq +:+ expected +:+ dq) (wrongPackageMessage name expected) = true.
Proof.
  intros He Hp Hf Hd Ht Hb Ho.
  assert (other ∈ BINARY_DISTRIBUTIONS) as Hin.
  { rewrite Ht. apply elem_of_app. right. apply list_elem_of_here. }
  assert (∃ name, packageName other = Some name) as [name Hn].
  { revert Hin. unfold BINARY_DISTRIBUTIONS. clear. intros Hin.
    repeat (apply elem_of_cons in Hin as [->|Hin]; [by eexists|]).
    by apply elem_of_nil in Hin. }
  exists name. split; [done|]. split; [|split; [|split]].
  - intros ->.
    assert (other = getDistributionForThisPlatform h) as ->.
    { apply BINARY_DISTRIBUTIONS_packageName; [done| |congruence].
      apply getDistributionForThisPlatform_listed, packageName_supported.
      rewrite Hp. by eexists. }
    congruence.
  - unfold installed in Hd. apply bool_decide_eq_false in Hd.
    rewrite (getBinaryPath_missing h expected); [|done|done|done|].
    + cbn [snd]. rewrite Ht, (findInstalled_found h before after other) by done.
      by rewrite Hn.
    + destruct (require_resolve h _); [|done]. destruct Hd. by eexists.
  - unfold wrongPackageMessage. apply includes_later, includes_quoted.
  - unfold wrongPackageMessage. do 5 apply includes_later. apply includes_quoted.
Qed.

Lemma wrong_package_error_witness :
  let h := machine "linux" "arm64" ∅ []
             {[ "@gsoc2/cli-win32-x64/bin/gsoc2-cli.exe" := "/app/node_modules/@gsoc2/cli-win32-x64/bin/gsoc2-cli.exe";
                "@gsoc2/cli-darwin/bin/gsoc2-cli" := "/app/node_modules/@gsoc2/cli-darwin/bin/gsoc2-cli" ]} in
  (getBinaryPath h).2
  = JS.Throw (JS.Error (wrongPackageMessage "@gsoc2/cli-darwin" "@gsoc2/cli-linux-arm64")).
Proof.
  intros h.
  assert (∃ name,
    packageName {| packageName := Some "@gsoc2/cli-darwin"; subpath := "bin/gsoc2-cli" |}
      = Some name
    ∧ name ≠ "@gsoc2/cli-linux-arm64"
    ∧ (getBinaryPath h).2
      = JS.Throw (JS.Error (wrongPackageMessage name "@gsoc2/cli-linux-arm64"))
    ∧ includes (dq +:+ name +:+ dq)
        (wrongPackageMessage name "@gsoc2/cli-linux-arm64") = true
    ∧ includes (dq +:+ "@gsoc2/cli-linux-arm64" +:+ dq)
        (wrongPackageMessage name "@gsoc2/cli-linux-arm64") = true) as H.
  { apply (wrong_package_error h "@gsoc2/cli-linux-arm64" []
             (drop 1 BINARY_DISTRIBUTIONS)); first [reflexivity | constructor]. }
  destruct H as (name & Hn & _ & He & _).
  injection Hn as <-. exact He.
Defined.

(** X4.  When the platform's own package is needed and no distribution of
    [BINARY_DISTRIBUTIONS] is installed, the error is the one about optional
    dependencies, raised after the fallback test, the lookup of the
    platform's package and one lookup of each of the seven distributions in
    table order. *)
Theorem no_optional_dependencies_error h :
  envPath h "GSOC2_BINARY_PATH" = None →
  supported (platform h) (arch h) = true →
  fs_existsSync h (getFallbackBinaryPath h) = false →
  Forall (λ d, installed h d = false) BINARY_DISTRIBUTIONS →
  getBinaryPath h =
    (ExistsSync (getFallbackBinaryPath h)
       :: RequireResolve (packagePath (getDistributionForThisPlatform h))
       :: ((RequireResolve ∘ packagePath) <$> BINARY_DISTRIBUTIONS),
     JS.Throw (JS.Error noOptionalDependenciesMessage)).
Proof.
  intros He Hs Hf Hall.
  pose proof (getDistributionForThisPlatform_listed h Hs) as Hin.
  pose proof (proj2 (packageName_supported h) Hs) as [expected Hp].
  assert (require_resolve h (packagePath (getDistributionForThisPlatform h)) = None) as Hr.
  { rewrite Forall_forall in Hall. specialize (Hall _ Hin).
    unfold installed in Hall. apply bool_decide_eq_false in Hall.
    destruct (require_resolve h _); [|done]. destruct Hall. by eexists. }
  rewrite (getBinaryPath_missing h expected) by done.
  pose proof (findInstalled_first h BINARY_DISTRIBUTIONS) as Hfind.
  rewrite (findInstalled_none h _ Hall) in Hfind. destruct Hfind as [_ Hps].
  by rewrite (findInstalled_none h _ Hall), Hps.
Qed.

Lemma no_optional_dependencies_error_witness :
  let h := machine "freebsd" "arm" ∅ [] ∅ in
  (getBinaryPath h).2 = JS.Throw (JS.Error noOptionalDependenciesMessage)
  ∧ length (getBinaryPath h).1 = 9%nat.
Proof.
  intros h.
  assert (getBinaryPath h =
    (ExistsSync (getFallbackBinaryPath h)
       :: RequireResolve (packagePath (getDistributionForThisPlatform h))
       :: ((RequireResolve ∘ packagePath) <$> BINARY_DISTRIBUTIONS),
     JS.Throw (JS.Error noOptionalDependenciesMessage))) as ->.
  { apply no_optional_dependencies_error; try reflexivity.
    apply (bool_decide_unpack _). vm_compute. exact I. }
  split; reflexivity.
Defined.

(** X5.  A resolution makes at most nine lookups: one file test and at most
    eight package lookups. *)
Theorem getBinaryPath_lookups_bounded h : (length (getBinaryPath h).1 ≤ 9)%nat.
Proof.
  unfold getBinaryPath.
  destruct (envPath h "GSOC2_BINARY_PATH"); [simpl; lia|].
  destruct (packageName (getDistributionForThisPlatform h)); [|simpl; lia].
  destruct (fs_existsSync h (getFallbackBinaryPath h)); [simpl; lia|].
  destruct (require_resolve h (packagePath (getDistributionForThisPlatform h)));
    [simpl; lia|].
  pose proof (findInstalled_first h BINARY_DISTRIBUTIONS) as Hfind.
  destruct (findInstalled h BINARY_DISTRIBUTIONS) as [ps [other|]]; cbn [fst snd] in *.
  - destruct Hfind as (before & after & Ht & _ & _ & ->).
    apply (f_equal length) in Ht. rewrite length_app in Ht. simpl in Ht.
    rewrite length_app, length_fmap, length_app. simpl. lia.
  - destruct Hfind as [_ ->]. rewrite length_app, length_fmap. simpl. lia.
Qed.

(** X6.  Of the environment, resolution reads [GSOC2_BINARY_PATH] alone,
    and an empty value there counts as no value. *)
Theorem getBinaryPath_environment h (env : gmap string string) :
  getBinaryPath (withEnv (<["GSOC2_BINARY_PATH" := ""]> env) h)
  = getBinaryPath (withEnv (delete "GSOC2_BINARY_PATH" env) h)
  ∧ ∀ name value,
      name ≠ "GSOC2_BINARY_PATH" →
      getBinaryPath (withEnv (<[name := value]> env) h) = getBinaryPath (withEnv env h).
Proof.
  assert (∀ env1 env2,
    envPath (withEnv env1 h) "GSOC2_BINARY_PATH" = envPath (withEnv env2 h) "GSOC2_BINARY_PATH" →
    getBinaryPath (withEnv env1 h) = getBinaryPath (withEnv env2 h)) as Hext.
  { intros env1 env2 He. unfold getBinaryPath. by rewrite He. }
  split.
  - apply Hext. unfold envPath; simpl. by rewrite lookup_insert_eq, lookup_delete_eq.
  - intros name value Hne. apply Hext. unfold envPath; simpl.
    by rewrite lookup_insert_ne.
Qed.

Lemma getBinaryPath_environment_witness :
  let h := machine "darwin" "arm64" ∅ []
             {[ "@gsoc2/cli-darwin/bin/gsoc2-cli" := "/opt/cli/bin/gsoc2-cli" ]} in
  getBinaryPath (withEnv {[ "PATH" := "/usr/bin" ]} h) = getBinaryPath (withEnv ∅ h).
Proof.
  intros h.
  apply (proj2 (getBinaryPath_environment h ∅) "PATH" "/usr/bin"). discriminate.
Defined.

(** X7.  No row of [BINARY_DISTRIBUTIONS] is dead: each of the seven
    distributions is the one chosen on some supported platform. *)
Theorem BINARY_DISTRIBUTIONS_chosen d :
  d ∈ BINARY_DISTRIBUTIONS →
  ∃ os cpu,
    supported os cpu = true
    ∧ ∀ h, platform h = os → arch h = cpu → getDistributionForThisPlatform h = d.
Proof.
  unfold BINARY_DISTRIBUTIONS. intros Hin.
  repeat (apply elem_of_cons in Hin as [->|Hin]).
  - exists "darwin", "arm64". split; [done|]. intros [] ??; simplify_eq/=; done.
  - exists "linux", "x64". split; [done|]. intros [] ??; simplify_eq/=; done.
  - exists "linux", "ia32". split; [done|]. intros [] ??; simplify_eq/=; done.
  - exists "freebsd", "arm64". split; [done|]. intros [] ??; simplify_eq/=; done.
  - exists "linux", "arm". split; [done|]. intros [] ??; simplify_eq/=; done.
  - exists "win32", "x64". split; [done|]. intros [] ??; simplify_eq/=; done.
  - exists "win32", "x86". split; [done|]. intros [] ??; simplify_eq/=; done.
  - by apply elem_of_nil in Hin.
Qed.

Lemma BINARY_DISTRIBUTIONS_chosen_witness :
  ∃ os cpu,
    supported os cpu = true
    ∧ ∀ h, platform h = os → arch h = cpu →
        getDistributionForThisPlatform h
        = {| packageName := Some "@gsoc2/cli-linux-arm"; subpath := "bin/gsoc2-cli" |}.
Proof.
  apply BINARY_DISTRIBUTIONS_chosen.
  do 4 apply list_elem_of_further. apply list_elem_of_here.
Defined.

(** X8.  On every platform the fallback binary and the package binary have
    the same file name: [getFallbackBinaryPath] resolves it beside the
    module's directory, [getDistributionForThisPlatform] puts it under
    [bin/]; it ends in [.exe] exactly on win32. *)
Theorem fallback_name_matches_subpath h :
  let name := if String.eqb (platform h) "win32" then "gsoc2-cli.exe" else "gsoc2-cli" in
  getFallbackBinaryPath h = path_resolve h [dirname h; ".."; name]
  ∧ subpath (getDistributionForThisPlatform h) = "bin/" +:+ name.
Proof.
  unfold getFallbackBinaryPath, getDistributionForThisPlatform; cbn -[String.eqb].
  destruct (String.eqb (platform h) "win32"); [done|]. split; [done|].
  by destruct (_ || _).
Qed.

End not_found.

(** ** Serialization: further results *)

Section serialization_further.

Implicit Types (schema : OptionsSchema) (o : Options).

(** On a schema object the reduction is the concatenation of the entries'
    contributions, an array value spliced. *)
Lemma serializeOptions_entries schema o :
  NoDup (Object_keys schema) →
  serializeOptions schema o = serializeEntries JS.spread schema o.
Proof.
  intros Hnd. unfold serializeOptions.
  rewrite serialize_from by (intros ???; by apply prop_NoDup).
  by destruct (serializeEntries JS.spread schema o).
Qed.

(** Options that read alike under the keys of the schema (equal, or both
    absent) serialize alike. *)
Lemma serializeOptions_ext schema o1 o2 :
  (∀ name, name ∈ Object_keys schema →
     get o1 name = get o2 name
     ∨ (JS.nullish (get o1 name) = true ∧ JS.nullish (get o2 name) = true)) →
  serializeOptions schema o1 = serializeOptions schema o2.
Proof.
  unfold serializeOptions. generalize (JS.Return (@nil JS.Value)).
  induction (Object_keys schema) as [|name keys IH]; intros r Hsame; [done|].
  simpl. rewrite IH by (intros ??; apply Hsame; by apply list_elem_of_further).
  f_equal. destruct r as [acc|e]; [simpl|done].
  unfold serializeOption.
  destruct (Hsame name) as [->|[-> ->]]; [apply list_elem_of_here|done..].
Qed.

(** X9.  A key of the options object that the schema does not declare is
    ignored, whatever its value. *)
Theorem unknown_option_ignored schema o (name : string) (value : JS.Value) :
  name ∉ Object_keys schema →
  serializeOptions schema (<[name := value]> o) = serializeOptions schema o.
Proof.
  intros Hn. apply serializeOptions_ext. intros key Hk. left.
  unfold get. rewrite lookup_insert_ne; [done|]. by intros ->.
Qed.

Lemma unknown_option_ignored_witness :
  let schema := [("ext", {| param := Some "--ext"; type := "array"; invertedParam := None |})] in
  serializeOptions schema {[ "verbose" := JS.Bool true; "ext" := JS.Arr [JS.Str "js"] ]}
  = serializeOptions schema {[ "ext" := JS.Arr [JS.Str "js"] ]}.
Proof.
  intros schema. apply unknown_option_ignored.
  apply (bool_decide_unpack _). vm_compute. exact I.
Defined.

(** X10.  Under a schema whose option names are not names inherited from
    [Object.prototype], an option set to [undefined] or [null] serializes as
    an option that is not set, for every declared type: no flag, no error.
    (Under an inherited name such as [toString] an option that is not set
    reads as the inherited function, which is why such names are left
    out.) *)
Theorem nullish_option_is_absent schema o (name : string) (value : JS.Value) :
  ownNames schema →
  JS.nullish value = true →
  serializeOptions schema (<[name := value]> o) = serializeOptions schema (delete name o).
Proof.
  intros _ Hv. apply serializeOptions_ext. intros key _. unfold get.
  destruct (decide (name = key)) as [->|Hne].
  - right. by rewrite lookup_insert_eq, lookup_delete_eq.
  - left. by rewrite lookup_insert_ne, lookup_delete_ne.
Qed.

Lemma nullish_option_is_absent_witness :
  let schema := [("rewrite", {| param := Some "--rewrite"; type := "boolean";
                                invertedParam := Some "--no-rewrite" |})] in
  ownNames schema
  ∧ serializeOptions schema {[ "rewrite" := JS.Null ]}
    = serializeOptions schema (delete "rewrite" ∅).
Proof.
  intros schema.
  assert (Ho : ownNames schema) by (apply (bool_decide_unpack _); vm_compute; exact I).
  split; [exact Ho|].
  apply (nullish_option_is_absent schema ∅ "rewrite" JS.Null Ho). reflexivity.
Defined.

Lemma serializeEntries_app (f : JS.Value → list JS.Value) (s1 s2 : OptionsSchema) o :
  serializeEntries f (s1 ++ s2) o =
    let! first := serializeEntries f s1 o in
    let! second := serializeEntries f s2 o in
    JS.Return (first ++ second).
Proof.
  induction s1 as [|[name entry] s1 IH]; simpl.
  - by destruct (serializeEntries f s2 o).
  - destruct (contribution f name entry (get o name)) as [tokens|e]; simpl; [|done].
    rewrite IH. destruct (serializeEntries f s1 o) as [first|e]; simpl; [|done].
    destruct (serializeEntries f s2 o) as [second|e]; simpl; [|done].
    by rewrite app_assoc.
Qed.

(** X11.  Serialization goes entry by entry: the arguments of a schema laid
    out as two parts are the arguments of the first part followed by those
    of the second, and an error of the first part is raised before the
    second part is looked at. *)
Theorem serializeOptions_app (s1 s2 : OptionsSchema) o :
  NoDup (Object_keys (s1 ++ s2)) →
  serializeOptions (s1 ++ s2) o =
    let! first := serializeOptions s1 o in
    let! second := serializeOptions s2 o in
    JS.Return (first ++ second).
Proof.
  intros Hnd. pose proof Hnd as Hnd'. unfold Object_keys in Hnd'.
  rewrite fmap_app in Hnd'. apply NoDup_app in Hnd' as (Hnd1 & _ & Hnd2).
  rewrite !serializeOptions_entries by done. apply serializeEntries_app.
Qed.

Lemma serializeOptions_app_witness :
  let s1 := [("ext", {| param := Some "--ext"; type := "array"; invertedParam := None |})] in
  let s2 := [("dist", {| param := Some "--dist"; type := "string"; invertedParam := None |})] in
  let o : Options := {[ "dist" := JS.Str "7"; "ext" := JS.Str "js" ]} in
  serializeOptions (s1 ++ s2) o = JS.Throw (JS.Error "ext should be an array").
Proof.
  intros s1 s2 o.
  rewrite (serializeOptions_app s1 s2 o).
  - reflexivity.
  - apply (bool_decide_unpack _). vm_compute. exact I.
Defined.

Lemma contribution_accepted (f : JS.Value → list JS.Value) (name : string)
    (entry : OptionSchema) (value : JS.Value) :
  if accepted entry value
  then ∃ tokens, contribution f name entry value = JS.Return tokens
  else contribution f name entry value = JS.Throw (JS.Error (refusal name entry)).
Proof.
  unfold accepted, contribution, refusal. rewrite !bool_decide_eqb.
  destruct (JS.nullish value); simpl; [by eexists|].
  destruct (String.eqb (type entry) "array").
  { destruct value; simpl; by eauto. }
  destruct (String.eqb (type entry) "boolean"); [|by eexists].
  destruct value as [| |[]| | | |]; simpl; by eauto.
Qed.

(** X12.  [serializeOptions] throws exactly when some declared option has a
    value of the wrong kind: if every value is accepted it returns, and
    otherwise the error names the first entry, in schema order, whose value
    is not accepted. *)
Theorem serializeOptions_errors schema o :
  NoDup (Object_keys schema) →
  (Forall (λ '(name, entry), accepted entry (get o name) = true) schema →
   ∃ tokens, serializeOptions schema o = JS.Return tokens)
  ∧ (∀ before name entry after,
       schema = before ++ (name, entry) :: after →
       Forall (λ '(name, entry), accepted entry (get o name) = true) before →
       accepted entry (get o name) = false →
       serializeOptions schema o = JS.Throw (JS.Error (refusal name entry))).
Proof.
  intros Hnd. rewrite serializeOptions_entries by done.
  assert (∀ entries,
    Forall (λ '(name, entry), accepted entry (get o name) = true) entries →
    ∃ tokens, serializeEntries JS.spread entries o = JS.Return tokens) as Hok.
  { induction 1 as [|[name entry] entries Ha _ [more IH]]; simpl; [by eexists|].
    pose proof (contribution_accepted JS.spread name entry (get o name)) as Hc.
    rewrite Ha in Hc. destruct Hc as [tokens ->]. rewrite IH. by eexists. }
  split; [apply Hok|].
  intros before name entry after -> Hb Hbad.
  rewrite serializeEntries_app. destruct (Hok _ Hb) as [first ->]. simpl.
  pose proof (contribution_accepted JS.spread name entry (get o name)) as Hc.
  rewrite Hbad in Hc. by rewrite Hc.
Qed.

Lemma serializeOptions_errors_witness :
  let schema := [
    ("ignore", {| param := Some "--ignore"; type := "array"; invertedParam := None |});
    ("rewrite", {| param := Some "--rewrite"; type := "boolean"; invertedParam := None |});
    ("validate", {| param := Some "--validate"; type := "boolean"; invertedParam := None |})] in
  let o : Options :=
    {[ "ignore" := JS.Arr []; "rewrite" := JS.Num 1; "validate" := JS.Str "yes" ]} in
  serializeOptions schema o = JS.Throw (JS.Error "rewrite should be a bool").
Proof.
  intros schema o.
  assert (Hnd : NoDup (Object_keys schema)) by (apply (bool_decide_unpack _); vm_compute; exact I).
  apply (proj2 (serializeOptions_errors schema o Hnd) (take 1 schema) "rewrite"
           {| param := Some "--rewrite"; type := "boolean"; invertedParam := None |}
           (drop 2 schema)).
  - reflexivity.
  - repeat constructor.
  - reflexivity.
Defined.

(** X13.  Under a schema of array and boolean options with declared flags
    every argument produced is a string, whatever the types of the array
    elements. *)
Theorem serializeOptions_strings schema o (tokens : list JS.Value) :
  NoDup (Object_keys schema) →
  Forall (λ '(_, entry),
            (type entry = "array" ∧ is_Some (param entry)) ∨ type entry = "boolean") schema →
  serializeOptions schema o = JS.Return tokens →
  Forall (λ token, isString token = true) tokens.
Proof.
  intros Hnd Hs. rewrite serializeOptions_entries by done. clear Hnd. revert tokens.
  induction Hs as [|[name entry] entries Hty _ IH]; simpl; intros tokens.
  { by intros [= <-]. }
  destruct (contribution JS.spread name entry (get o name)) as [first|e] eqn:Hc;
    simpl; [|done].
  destruct (serializeEntries JS.spread entries o) as [more|e]; simpl; [|done].
  intros [= <-]. apply Forall_app. split; [|by apply IH].
  revert Hc. unfold contribution. clear IH. rewrite !bool_decide_eqb.
  destruct (JS.nullish (get o name)); [by intros [= <-]|].
  destruct Hty as [[-> [flag ->]]| ->]; simpl.
  - destruct (get o name) as [| | | | |elems|]; try done. intros [= <-].
    unfold arrayContribution. induction elems; simpl; by repeat constructor.
  - destruct (get o name) as [| |[]| | | |]; try done; intros [= <-].
    + destruct (param entry); by repeat constructor.
    + destruct (invertedParam entry); by repeat constructor.
Qed.

Lemma serializeOptions_strings_witness :
  let schema := [("ext", {| param := Some "--ext"; type := "array"; invertedParam := None |})] in
  let o : Options := {[ "ext" := JS.Arr [JS.Num 7; JS.Bool true; JS.Null] ]} in
  serializeOptions schema o
  = JS.Return [JS.Str "--ext"; JS.Str "7"; JS.Str "--ext"; JS.Str "true";
               JS.Str "--ext"; JS.Str "null"]
  ∧ Forall (λ token, isString token = true)
      [JS.Str "--ext"; JS.Str "7"; JS.Str "--ext"; JS.Str "true"; JS.Str "--ext"; JS.Str "null"].
Proof.
  intros schema o.
  assert (He : serializeOptions schema o
    = JS.Return [JS.Str "--ext"; JS.Str "7"; JS.Str "--ext"; JS.Str "true";
                 JS.Str "--ext"; JS.Str "null"]) by reflexivity.
  split; [exact He|].
  apply (serializeOptions_strings schema o); [| |exact He].
  - apply (bool_decide_unpack _). vm_compute. exact I.
  - constructor; [|constructor]. left. split; [reflexivity|]. eexists; reflexivity.
Defined.

End serialization_further.

(** ** Commands, executions and the wrapper class: further results *)

Section commands.

Implicit Types (h : Host) (m : Helper) (run : Request → ProcessResult).

(** X14.  For a command given as an array, [prepareCommand] returns the
    command tokens, untouched, followed by the serialized options, and
    raises the serializer's error if there is one.  Without options the
    result is the command itself, under every schema whose option names are
    not names inherited from [Object.prototype]; without a schema every
    option is ignored.  A command that is [undefined] or [null] is a type
    error whatever the schema and options. *)
Theorem prepareCommand_array (command : list JS.Value) (schema : option OptionsSchema)
    (options : option Options) :
  prepareCommand (JS.Arr command) schema options
    = (let! tokens := serializeOptions (default [] schema) (default ∅ options) in
       JS.Return (JS.Arr (command ++ tokens)))
  ∧ (ownNames (default [] schema) →
     prepareCommand (JS.Arr command) schema None = JS.Return (JS.Arr command))
  ∧ prepareCommand (JS.Arr command) None options = JS.Return (JS.Arr command)
  ∧ (∃ message, prepareCommand JS.Undefined schema options = JS.Throw (JS.TypeError message))
  ∧ (∃ message, prepareCommand JS.Null schema options = JS.Throw (JS.TypeError message)).
Proof.
  assert (prepareCommand (JS.Arr command) schema options
    = (let! tokens := serializeOptions (default [] schema) (default ∅ options) in
       JS.Return (JS.Arr (command ++ tokens)))) as Heq.
  { unfold prepareCommand; simpl.
    destruct (serializeOptions _ _); simpl; [|done]. by rewrite concat_array. }
  split; [exact Heq|]. split; [|split; [|split; by eexists]].
  - intros Ho. unfold prepareCommand; simpl.
    rewrite serializeOptions_no_options by done; simpl.
    by rewrite concat_array, app_nil_r.
  - unfold prepareCommand; simpl. by rewrite concat_array, app_nil_r.
Qed.

Lemma prepareCommand_array_witness :
  let schema := [("env", {| param := Some "--env"; type := "string"; invertedParam := None |})] in
  ownNames schema
  ∧ prepareCommand (JS.Arr [JS.Str "releases"; JS.Str "new"]) (Some schema) None
    = JS.Return (JS.Arr [JS.Str "releases"; JS.Str "new"]).
Proof.
  intros schema.
  assert (Ho : ownNames schema) by (apply (bool_decide_unpack _); vm_compute; exact I).
  split; [exact Ho|].
  exact (proj1 (proj2 (prepareCommand_array [JS.Str "releases"; JS.Str "new"]
                         (Some schema) None)) Ho).
Defined.

(** X15.  [getProjectFlagsFromOptions] gives one [-p] before each project,
    in order (a project that is itself an array is spliced in by [concat]),
    and no flag at all when [projects] is omitted. *)
Theorem getProjectFlagsFromOptions_flags (projects : list JS.Value) :
  getProjectFlagsFromOptions (Some projects)
    = projects ≫= (λ project, JS.Str "-p" :: JS.spread project)
  ∧ (Forall (λ project, isString project = true) projects →
     getProjectFlagsFromOptions (Some projects)
       = projects ≫= (λ project, [JS.Str "-p"; project])
     ∧ length (getProjectFlagsFromOptions (Some projects)) = (2 * length projects)%nat)
  ∧ getProjectFlagsFromOptions None = [].
Proof.
  assert (∀ acc,
    fold_left (λ flags project, JS.concat flags [JS.Str "-p"; project]) projects acc
    = acc ++ projects ≫= (λ project, JS.Str "-p" :: JS.spread project)) as Hfold.
  { induction projects as [|project projects IH]; intros acc; simpl.
    - by rewrite app_nil_r.
    - rewrite IH. unfold JS.concat; simpl. by rewrite app_nil_r, <- app_assoc. }
  assert (getProjectFlagsFromOptions (Some projects)
    = projects ≫= (λ project, JS.Str "-p" :: JS.spread project)) as Heq
    by apply (Hfold []).
  split; [exact Heq|]. split; [|done].
  intros Hs. rewrite Heq. clear Heq Hfold.
  induction Hs as [|project projects Hp _ [IH1 IH2]]; [done|].
  rewrite !bind_cons, IH1. destruct project; try done. split; [done|].
  rewrite length_app, <- IH1, IH2. simpl. lia.
Qed.

Lemma getProjectFlagsFromOptions_flags_witness :
  getProjectFlagsFromOptions (Some [JS.Str "proj-a"; JS.Str "proj-b"])
  = [JS.Str "-p"; JS.Str "proj-a"; JS.Str "-p"; JS.Str "proj-b"].
Proof.
  apply (proj1 (proj1 (proj2 (getProjectFlagsFromOptions_flags
                                [JS.Str "proj-a"; JS.Str "proj-b"])) ltac:(repeat constructor))).
Defined.

(** X16.  When the binary path cannot be resolved, [execute] starts no
    process in either mode and the promise is rejected with the error of the
    resolution, after exactly the lookups of the resolution. *)
Theorem execute_unresolved m h run (args : list JS.Value) (live silent configFile : JS.Value)
    (config : option Options) (e : JS.Exn) :
  (getPath m h).2 = JS.Throw e →
  let x := execute m h run args live silent configFile config in
  request x = None ∧ promise x = Rejected e ∧ probes x = (getPath m h).1.
Proof.
  intros Hp. cbv zeta. unfold execute.
  destruct (childEnvironment h args configFile config) as [env args'].
  destruct (getPath m h) as [ps path]; simpl in Hp; subst path.
  by destruct live as [| |[]| | | |].
Qed.

Lemma execute_unresolved_witness :
  let h := machine "sunos" "x64" ∅ [] ∅ in
  let x := execute initial h (exits 0) [JS.Str "info"] (JS.Bool true) (JS.Bool false)
             JS.Undefined None in
  request x = None ∧ promise x = Rejected (JS.Error unsupportedPlatformMessage)
  ∧ probes x = [].
Proof.
  intros h.
  apply (execute_unresolved initial h (exits 0) [JS.Str "info"] (JS.Bool true) (JS.Bool false)
           JS.Undefined None (JS.Error unsupportedPlatformMessage)).
  reflexivity.
Defined.

(** X17.  The child environment never loses a variable of the parent, and
    it has no variable that is neither the parent's nor one of the nine
    configuration variables. *)
Theorem child_environment_domain h (args : list JS.Value) (configFile : JS.Value)
    (config : option Options) (name : string) :
  let env := (childEnvironment h args configFile config).1 in
  (is_Some (process_env h !! name) → is_Some (env !! name))
  ∧ (is_Some (env !! name) →
     is_Some (process_env h !! name)
     ∨ name ∈ Object_keys (configurationVariables configFile (default ∅ config))).
Proof.
  cbv zeta. rewrite childEnvironment_lookup. unfold documentedEnvironment.
  destruct (prop (configurationVariables configFile (default ∅ config)) name)
    as [value|] eqn:Hp.
  - assert (name ∈ Object_keys (configurationVariables configFile (default ∅ config))) as Hin.
    { destruct (decide (name ∈ Object_keys
                  (configurationVariables configFile (default ∅ config)))) as [|Hn]; [done|].
      apply prop_not_listed in Hn. congruence. }
    destruct (JS.truthy value); split; try (by right); [by eexists|].
    rewrite fmap_is_Some. done.
  - rewrite fmap_is_Some. split; [done|by left].
Qed.

Lemma child_environment_domain_witness :
  let h := machine "linux" "x64" {[ "HOME" := "/root"; "GSOC2_URL" := "https://inherited" ]} [] ∅ in
  let env := (childEnvironment h [] JS.Undefined
                (Some {[ "url" := JS.Str "https://x" ]})).1 in
  is_Some (env !! "HOME") ∧ is_Some (env !! "GSOC2_URL").
Proof.
  intros h env. split.
  - apply (proj1 (child_environment_domain h [] JS.Undefined
                    (Some {[ "url" := JS.Str "https://x" ]}) "HOME")).
    eexists; reflexivity.
  - apply (proj1 (child_environment_domain h [] JS.Undefined
                    (Some {[ "url" := JS.Str "https://x" ]}) "GSOC2_URL")).
    eexists; reflexivity.
Defined.

End commands.

Section wrapper.

Implicit Types (h : Host) (m : Helper) (run : Request → ProcessResult).

(** X18.  [execute] reads of [config] the eight recognized fields and
    [headers], and nothing else: configurations that agree on these produce
    the same execution. *)
Theorem execute_reads_configKeys m h run (args : list JS.Value)
    (live silent configFile : JS.Value) (c1 c2 : Options) :
  (∀ key, key ∈ configKeys → get c1 key = get c2 key) →
  execute m h run args live silent configFile (Some c1)
  = execute m h run args live silent configFile (Some c2).
Proof.
  intros Hk. apply execute_childEnvironment.
  unfold childEnvironment; cbv zeta.
  change (default ∅ (Some c1)) with c1. change (default ∅ (Some c2)) with c2.
  assert (∀ key, bool_decide (key ∈ configKeys) = true → get c1 key = get c2 key) as Hb.
  { intros key Hin. apply Hk. by apply bool_decide_eq_true in Hin. }
  by rewrite (Hb "url"), (Hb "authToken"), (Hb "apiKey"), (Hb "dsn"), (Hb "org"),
    (Hb "project"), (Hb "vcsRemote"), (Hb "customHeader"), (Hb "headers").
Qed.

Lemma execute_reads_configKeys_witness :
  let h := machine "linux" "x64" ∅ [] ∅ in
  let m := mockBinaryPath "/usr/bin/gsoc2-cli" initial in
  execute m h (exits 0) [] JS.Null (JS.Bool false) JS.Undefined
    (Some {[ "org" := JS.Str "acme"; "silent" := JS.Bool true ]})
  = execute m h (exits 0) [] JS.Null (JS.Bool false) JS.Undefined
      (Some {[ "org" := JS.Str "acme" ]}).
Proof.
  intros h m. apply execute_reads_configKeys.
  intros key Hin. unfold configKeys, fieldVariables in Hin. simpl in Hin.
  repeat (apply elem_of_cons in Hin as [->|Hin]; [reflexivity|]).
  apply elem_of_nil in Hin. destruct Hin.
Defined.

Lemma execute_live_request m h run (args : list JS.Value) (silent configFile : JS.Value)
    (config : option Options) (file : string) :
  (getPath m h).2 = JS.Return file →
  request (execute m h run args (JS.Bool true) silent configFile config)
  = Some (spawn file (childEnvironment h args configFile config).2
            (childEnvironment h args configFile config).1
            (ignore, if JS.truthy silent then ignore else inherit,
                     if JS.truthy silent then ignore else inherit)).
Proof.
  intros Hp. unfold execute.
  destruct (childEnvironment h args configFile config) as [env args'].
  by destruct (getPath m h) as [ps path]; simpl in Hp; subst path.
Qed.

(** X19.  The class passes a configuration file on only when the
    constructor was given a string: in the request of an instance's
    [execute], [GSOC2_PROPERTIES] is that string when it is not empty, and
    otherwise (an empty string, [null], a number, an object) it reads as in
    the parent's environment. *)
Theorem Gsoc2Cli_configFile (configFile : JS.Value) (options : option Options)
    m h run (args : list JS.Value) (live : JS.Value) (r : Request) :
  request (Gsoc2Cli.execute (Gsoc2Cli.constructor configFile options) m h run args live)
    = Some r →
  envOf r !! "GSOC2_PROPERTIES" =
    match configFile with
    | JS.Str path =>
        if String.eqb path "" then JS.Str <$> process_env h !! "GSOC2_PROPERTIES"
        else Some (JS.Str path)
    | _ => JS.Str <$> process_env h !! "GSOC2_PROPERTIES"
    end.
Proof.
  unfold Gsoc2Cli.execute. intros [-> _]%execute_request.
  rewrite childEnvironment_lookup. unfold documentedEnvironment; cbn.
  destruct configFile as [| | | |path| |]; try done; simpl.
  by destruct (String.eqb path "").
Qed.

Lemma Gsoc2Cli_configFile_witness :
  let h := machine "linux" "x64" {[ "GSOC2_PROPERTIES" := "/etc/gsoc2.properties" ]} [] ∅ in
  let m := mockBinaryPath "/usr/bin/gsoc2-cli" initial in
  let x := Gsoc2Cli.execute (Gsoc2Cli.constructor (JS.Num 5) None) m h (exits 0) [] JS.Null in
  ∃ r, request x = Some r
       ∧ envOf r !! "GSOC2_PROPERTIES" = Some (JS.Str "/etc/gsoc2.properties").
Proof.
  intros h m x. eexists. split; [reflexivity|].
  apply (Gsoc2Cli_configFile (JS.Num 5) None m h (exits 0) [] JS.Null). reflexivity.
Defined.

(** X20.  An instance built without options runs the binary with the
    caller's arguments as they are and with the parent's environment, to
    which only [GSOC2_PROPERTIES] may be added; in live mode its output is
    inherited. *)
Theorem Gsoc2Cli_default_options (configFile : JS.Value) m h run (args : list JS.Value)
    (live : JS.Value) (r : Request) :
  request (Gsoc2Cli.execute (Gsoc2Cli.constructor configFile None) m h run args live)
    = Some r →
  argsOf r = args
  ∧ (∀ name, name ≠ "GSOC2_PROPERTIES" →
       envOf r !! name = JS.Str <$> process_env h !! name)
  ∧ (live = JS.Bool true → stdioOf r = (ignore, inherit, inherit)).
Proof.
  unfold Gsoc2Cli.execute, Gsoc2Cli.constructor. cbn [Gsoc2Cli.options Gsoc2Cli.configFile].
  change (default {[ "silent" := JS.Bool false ]} None)
    with ({[ "silent" := JS.Bool false ]} : Options).
  intros Hr. pose proof Hr as [He Ha]%execute_request. split; [|split].
  - by rewrite Ha, childEnvironment_args.
  - intros name Hn. rewrite He, childEnvironment_lookup.
    unfold documentedEnvironment, configurationVariables, fieldVariables.
    cbn -[String.eqb].
    destruct (String.eqb_spec "GSOC2_PROPERTIES" name) as [<-|_]; [done|].
    repeat (destruct (String.eqb _ name); [reflexivity|]). reflexivity.
  - intros ->. revert Hr. unfold execute.
    destruct (childEnvironment _ _ _ _) as [env args'].
    destruct (getPath m h) as [ps [file|e]]; [|done].
    by intros [= <-].
Qed.

Lemma Gsoc2Cli_default_options_witness :
  let h := machine "linux" "x64" {[ "HOME" := "/root" ]} [] ∅ in
  let m := mockBinaryPath "/usr/bin/gsoc2-cli" initial in
  let x := Gsoc2Cli.execute (Gsoc2Cli.constructor JS.Undefined None) m h (exits 0)
             [JS.Str "releases"; JS.Str "list"] (JS.Bool true) in
  ∃ r, request x = Some r
       ∧ argsOf r = [JS.Str "releases"; JS.Str "list"]
       ∧ stdioOf r = (ignore, inherit, inherit).
Proof.
  intros h m x. eexists. split; [reflexivity|].
  destruct (Gsoc2Cli_default_options JS.Undefined m h (exits 0)
              [JS.Str "releases"; JS.Str "list"] (JS.Bool true) _ eq_refl) as (Ha & _ & Hs).
  split; [exact Ha|]. apply Hs. reflexivity.
Defined.

(** X21.  In live mode an instance discards the binary's output exactly
    when its [silent] option is truthy, and standard input is closed either
    way; the [silent] option has no other effect on the process: it changes
    neither the environment nor the arguments. *)
Theorem Gsoc2Cli_silent (configFile : JS.Value) (options : Options)
    m h run (args : list JS.Value) (file : string) :
  (getPath m h).2 = JS.Return file →
  let this := Gsoc2Cli.constructor configFile (Some options) in
  let quiet := Gsoc2Cli.constructor configFile (Some (<["silent" := JS.Bool true]> options)) in
  (∃ r, request (Gsoc2Cli.execute this m h run args (JS.Bool true)) = Some r
        ∧ stdioOf r =
            (ignore,
             if JS.truthy (get options "silent") then ignore else inherit,
             if JS.truthy (get options "silent") then ignore else inherit))
  ∧ (∃ r r',
       request (Gsoc2Cli.execute this m h run args (JS.Bool true)) = Some r
       ∧ request (Gsoc2Cli.execute quiet m h run args (JS.Bool true)) = Some r'
       ∧ stdioOf r' = (ignore, ignore, ignore)
       ∧ envOf r' = envOf r ∧ argsOf r' = argsOf r).
Proof.
  intros Hp. cbv zeta. unfold Gsoc2Cli.execute, Gsoc2Cli.constructor.
  cbn [Gsoc2Cli.options Gsoc2Cli.configFile].
  change (default _ (Some ?o)) with o.
  rewrite !(execute_live_request _ _ _ _ _ _ _ file Hp). split.
  - by eexists.
  - do 2 eexists. split; [done|]. split; [done|].
    assert (childEnvironment h args
              (flagValue match configFile with JS.Str path => Some path | _ => None end)
              (Some (<["silent" := JS.Bool true]> options))
            = childEnvironment h args
              (flagValue match configFile with JS.Str path => Some path | _ => None end)
              (Some options)) as ->.
    { unfold childEnvironment; cbv zeta. change (default ∅ (Some ?o)) with o.
      unfold get. by rewrite !lookup_insert_ne by done. }
    split; [|done]. unfold get. by rewrite lookup_insert_eq.
Qed.

Lemma Gsoc2Cli_silent_witness :
  let h := machine "linux" "x64" ∅ [] ∅ in
  let m := mockBinaryPath "/usr/bin/gsoc2-cli" initial in
  let this := Gsoc2Cli.constructor JS.Undefined (Some {[ "silent" := JS.Num 1 ]}) in
  ∃ r, request (Gsoc2Cli.execute this m h (exits 0) [] (JS.Bool true)) = Some r
       ∧ stdioOf r = (ignore, ignore, ignore).
Proof.
  intros h m this.
  exact (proj1 (Gsoc2Cli_silent JS.Undefined {[ "silent" := JS.Num 1 ]} m h (exits 0) []
                  "/usr/bin/gsoc2-cli" eq_refl)).
Defined.

End wrapper.

Section modes.

Implicit Types (h : Host) (m : Helper) (run : Request → ProcessResult).

(** X22.  [execute] spawns in live mode for [live === true] and for no
    other value: for every other [live], truthy or not, the execution is
    the one for [live = false], request and promise alike, whatever
    [silent] is; and when the binary path resolves its request is the call
    of [execFile] with the child environment and arguments. *)
Theorem execute_buffered_unless_true m h run (args : list JS.Value)
    (live silent silent' configFile : JS.Value) (config : option Options) :
  live ≠ JS.Bool true →
  execute m h run args live silent configFile config
  = execute m h run args (JS.Bool false) silent' configFile config
  ∧ ∀ file,
      (getPath m h).2 = JS.Return file →
      request (execute m h run args live silent configFile config)
      = Some (execFile file (childEnvironment h args configFile config).2
                (childEnvironment h args configFile config).1).
Proof.
  intros Hl. unfold execute.
  destruct (childEnvironment h args configFile config) as [env args'].
  assert (∀ A (a b : A), match live with JS.Bool true => a | _ => b end = b) as Hb.
  { intros; by destruct live as [| |[]| | | |]. }
  rewrite Hb. split; [done|].
  intros file Hp. by destruct (getPath m h) as [ps path]; simpl in Hp; subst path.
Qed.

Lemma execute_buffered_unless_true_witness :
  let h := machine "linux" "x64" ∅ [] ∅ in
  let m := mockBinaryPath "/usr/bin/gsoc2-cli" initial in
  let x := execute m h (exits 0) [JS.Str "info"] (JS.Str "true") (JS.Bool true)
             JS.Undefined None in
  x = execute m h (exits 0) [JS.Str "info"] (JS.Bool false) (JS.Bool false) JS.Undefined None
  ∧ request x = Some (execFile "/usr/bin/gsoc2-cli" [JS.Str "info"] ∅).
Proof.
  intros h m x.
  destruct (execute_buffered_unless_true m h (exits 0) [JS.Str "info"] (JS.Str "true")
              (JS.Bool true) (JS.Bool false) JS.Undefined None)
    as [He Hr]; [discriminate|].
  split; [exact He|]. apply Hr. reflexivity.
Defined.

End modes.
